(** * spi-tools: the [Wiki] access layer of [spi/wiki_interface.py]

  A shallow embedding of the high-level wiki interface and proofs of
  its documented behaviour.  The Python methods are state transformers
  over the [Wiki] object and the traffic it causes; what [mwclient],
  Django, [mwparserfromhell], [dateutil] and the sibling modules
  [spi_utils], [block_utils] and [time_utils] provide is taken as a
  parameter of the development. *)

From stdpp Require Import gmap strings list pretty.
From Stdlib Require Import ZArith Permutation.

Open Scope string_scope.
Open Scope list_scope.
Set Warnings "-register-all".

(** ** Python values and exceptions *)

Module Py.

(** [time.struct_time], as [mwclient] hands out timestamps. *)
Record struct_time := {
  tm_year : Z; tm_mon : Z; tm_mday : Z;
  tm_hour : Z; tm_min : Z; tm_sec : Z;
  tm_wday : Z; tm_yday : Z; tm_isdst : Z
}.

(** [datetime.datetime]; [tzoffset] is [None] for a naive value and the
    offset from UTC in seconds otherwise. *)
Record datetime := {
  year : Z; month : Z; day : Z;
  hour : Z; minute : Z; second : Z; microsecond : Z;
  tzoffset : option Z
}.

(** What a decoded API response is made of. *)
Inductive value :=
| VNone
| VBool (b : bool)
| VInt (n : Z)
| VStr (s : string)
| VTime (t : struct_time)
| VDatetime (d : datetime)
| VList (l : list value)
| VDict (d : gmap string value).

Inductive exn :=
| KeyError (key : string)
| ValueError (msg : string)
| TypeError
| AttributeError (attr : string)
| StopIteration
| DoesNotExist
| MultipleObjectsReturned.

(** The outcome of an expression: an exception or a result. *)
Definition result (A : Type) : Type := exn + A.

(** [bool(v)] *)
Definition truthy (v : value) : bool :=
  match v with
  | VNone => false
  | VBool b => b
  | VInt n => negb (n =? 0)%Z
  | VStr s => negb (String.eqb s "")
  | VTime _ => true
  | VDatetime _ => true
  | VList l => match l with [] => false | _ => true end
  | VDict d => negb (bool_decide (d = ∅))
  end.

(** [v == s] against a string literal. *)
Definition eq_str (v : value) (s : string) : bool :=
  match v with
  | VStr s' => String.eqb s' s
  | _ => false
  end.

(** [d[key]] on a dict. *)
Definition getitem (d : gmap string value) (key : string) : result value :=
  match d !! key with
  | Some v => inr v
  | None => inl (KeyError key)
  end.

(** [v[key]] with a string key on an arbitrary value: only a dict can
    be subscripted this way. *)
Definition subscript (v : value) (key : string) : result value :=
  match v with
  | VDict d => getitem d key
  | _ => inl TypeError
  end.

(** [v.get(key)] *)
Definition dict_get (v : value) (key : string) : result value :=
  match v with
  | VDict d => inr (default VNone (d !! key))
  | _ => inl (AttributeError "get")
  end.

(** [for x in v]: a list gives its items, a string its characters, a
    dict its keys and a [struct_time] its nine fields; [None], a bool,
    an int or a datetime cannot be iterated.  Python gives the keys of a
    dict in the order of their insertion, which the map does not keep:
    they come in the order of the map. *)
Definition iterate (v : value) : result (list value) :=
  match v with
  | VList l => inr l
  | VStr s => inr ((fun c => VStr (String c "")) <$> String.list_ascii_of_string s)
  | VDict d => inr (VStr <$> (map_to_list d).*1)
  | VTime t => inr (VInt <$> [tm_year t; tm_mon t; tm_mday t;
                              tm_hour t; tm_min t; tm_sec t;
                              tm_wday t; tm_yday t; tm_isdst t])
  | _ => inl TypeError
  end.

(** [s.endswith(suffix)] on strings. *)
Definition endswith (s suffix : string) : bool :=
  String.prefix (String.rev suffix) (String.rev s).

(** [s[:-1]] *)
Definition drop_last (s : string) : string :=
  String.substring 0 (String.length s - 1) s.

(** [fmt % s] for a format with one [%s], which splits it into the text
    before and the text after. *)
Definition percent_s (before after s : string) : string :=
  before +:+ s +:+ after.

End Py.
Export Py.

(** ** The collaborators: Django, mwclient and the world they talk to *)

Module Django.

(** A row of [social_django]'s association table, as far as the
    interface reads it. *)
Record UserSocialAuth := {
  provider : string;
  extra_data : gmap string value
}.

(** What [django.contrib.auth.get_user] resolves a request to: the
    [AnonymousUser] or a stored user with its social-auth rows. *)
Inductive User :=
| AnonymousUser
| StoredUser (username : string) (social_auth : list UserSocialAuth).

Definition is_anonymous (u : User) : bool :=
  match u with
  | AnonymousUser => true
  | StoredUser _ _ => false
  end.

Record HttpRequest := { session_user : User }.

Definition get_user (request : HttpRequest) : User := session_user request.

(** [user.social_auth.get(provider=p)]: a query that must match exactly
    one row. *)
Definition social_auth_get (u : User) (p : string) : result UserSocialAuth :=
  match u with
  | AnonymousUser => inl (AttributeError "social_auth")
  | StoredUser _ rows =>
      match filter (fun r => provider r = p) rows with
      | [] => inl DoesNotExist
      | [r] => inr r
      | _ => inl MultipleObjectsReturned
      end
  end.

(** The entries of [django.conf.settings] the interface reads. *)
Record Settings := {
  MEDIAWIKI_SITE_NAME : value;
  MEDIAWIKI_USER_AGENT : value;
  SOCIAL_AUTH_MEDIAWIKI_KEY : value;
  SOCIAL_AUTH_MEDIAWIKI_SECRET : value
}.

End Django.
Export Django.

Module Mw.

(** An [mwclient.Site] handle: the positional host, the user agent and
    the remaining keyword arguments it was constructed with. *)
Record Site := {
  host : value;
  clients_useragent : value;
  auth_info : gmap string value
}.

(** The calls the interface makes through a handle. *)
Inductive api_call :=
| PageText (title : string)
| PageExists (title : string)
| Users (users : list string) (prop : list string)
| UserContributions (user : string)
| Listing (list_name prefix : string) (kwargs : gmap string value)
| LogEvents (title type dir : string).

(** The wiki behind the handle: what each call answers. *)
Record MediaWiki := {
  page_text : string -> string;
  page_exists : string -> value;
  users : list string -> list string -> list (gmap string value);
  usercontributions : string -> list (gmap string value);
  listing : string -> string -> gmap string value -> list (gmap string value);
  logevents : string -> string -> string -> list (gmap string value)
}.

(** [List.generate_kwargs(prefix, **kwargs)]: prefixed keys, without the
    entries that are [None] or [False]. *)
Definition generate_kwargs (pfx : string) (kwargs : list (string * value))
  : list (string * value) :=
  omap (fun kv =>
          match kv.2 with
          | VNone | VBool false => None
          | v => Some (pfx +:+ kv.1, v)
          end) kwargs.

End Mw.
Export Mw.

(** ** Program states and the monad of the methods *)

Inductive log_record :=
| LogDebug (fmt : string) (arg : value)
| LogError (fmt : string) (arg : value).

(** The state a method runs in: the [site] attribute of the [Wiki]
    object ([None] until [__init__] has assigned it), every handle
    constructed so far, the calls made (with the handle used) and the
    records given to the module's logger. *)
Record state := {
  self_site : option Site;
  constructed : list Site;
  traffic : list (Site * api_call);
  logged : list log_record
}.

Definition M (A : Type) : Type := state -> result A * state.

Definition ret {A} (a : A) : M A := fun σ => (inr a, σ).
Definition raise {A} (e : exn) : M A := fun σ => (inl e, σ).
Definition bind {A B} (m : M A) (k : A -> M B) : M B :=
  fun σ => match m σ with
           | (inr a, σ') => k a σ'
           | (inl e, σ') => (inl e, σ')
           end.
Definition lift {A} (r : result A) : M A := fun σ => (r, σ).

Notation "'let*' x ':=' m 'in' k" := (bind m (fun x => k))
  (at level 10, x name, m at level 100, k at level 200).
Notation "'run*' m 'in' k" := (bind m (fun _ => k))
  (at level 10, m at level 100, k at level 200).

(** [self.site] *)
Definition get_site : M Site :=
  fun σ => match self_site σ with
           | Some s => (inr s, σ)
           | None => (inl (AttributeError "site"), σ)
           end.

(** [self.site = s] *)
Definition set_site (s : Site) : M unit :=
  fun σ => (inr tt, {| self_site := Some s; constructed := constructed σ;
                       traffic := traffic σ; logged := logged σ |}).

(** [Site(host, clients_useragent=ua, **auth)]: the handle is recorded
    as constructed; its connection to the wiki is taken to succeed. *)
Definition new_Site (h ua : value) (auth : gmap string value) : M Site :=
  fun σ => let s := {| host := h; clients_useragent := ua; auth_info := auth |} in
           (inr s, {| self_site := self_site σ; constructed := constructed σ ++ [s];
                      traffic := traffic σ; logged := logged σ |}).

(** A call through handle [s]. *)
Definition call (s : Site) (c : api_call) : M unit :=
  fun σ => (inr tt, {| self_site := self_site σ; constructed := constructed σ;
                       traffic := traffic σ ++ [(s, c)]; logged := logged σ |}).

Definition log (r : log_record) : M unit :=
  fun σ => (inr tt, {| self_site := self_site σ; constructed := constructed σ;
                       traffic := traffic σ; logged := logged σ ++ [r] |}).

(** A [for] loop that threads a local variable through its body. *)
Fixpoint for_acc {A S} (l : list A) (acc : S) (body : A -> S -> M S) : M S :=
  match l with
  | [] => ret acc
  | x :: l' => let* acc' := body x acc in for_acc l' acc' body
  end.

(** A list comprehension whose element expression may raise. *)
Fixpoint map_result {A B} (f : A -> result B) (l : list A) : result (list B) :=
  match l with
  | [] => inr []
  | x :: l' =>
      match f x with
      | inl e => inl e
      | inr b =>
          match map_result f l' with
          | inl e => inl e
          | inr bs => inr (b :: bs)
          end
      end
  end.

(** Generators, consumed to the end: what was yielded, in order, and the
    exception that ended the iteration if one did. *)
Definition G (A : Type) : Type := state -> (list A * option exn) * state.

Definition gen_done {A} : G A := fun σ => (([], None), σ).

Definition yield {A} (a : A) : G A := fun σ => (([a], None), σ).

(** [g1] followed by [g2]; an exception in [g1] ends the generator. *)
Definition gen_seq {A} (g1 g2 : G A) : G A :=
  fun σ => match g1 σ with
           | ((ys, None), σ') =>
               let '((zs, e), σ'') := g2 σ' in ((ys ++ zs, e), σ'')
           | ((ys, Some e), σ') => ((ys, Some e), σ')
           end.

(** A [for] loop in a generator body. *)
Fixpoint gen_for {A B} (l : list A) (body : A -> G B) : G B :=
  match l with
  | [] => gen_done
  | x :: l' => gen_seq (body x) (gen_for l' body)
  end.

(** Statements before the next [yield]; an exception ends the generator. *)
Definition gen_bind {A B} (m : M A) (k : A -> G B) : G B :=
  fun σ => match m σ with
           | (inr a, σ') => k a σ'
           | (inl e, σ') => (([], Some e), σ')
           end.

Notation "'gen*' x ':=' m 'in' k" := (gen_bind m (fun x => k))
  (at level 10, x name, m at level 100, k at level 200).

(** ** Value objects *)

(** The frozen dataclass [WikiContrib]. *)
Record WikiContrib := {
  timestamp : datetime;
  title : value;
  comment : value;
  is_live : bool
}.

(** [WikiContrib(timestamp, title, comment)] and
    [WikiContrib(timestamp, title, comment, is_live=b)]: the fourth
    field defaults to [True]. *)
Definition WikiContrib_new (ts : datetime) (t c : value) (live : option bool)
  : WikiContrib :=
  {| timestamp := ts; title := t; comment := c; is_live := default true live |}.

(** Modelled from the spec: the events of [block_utils], which is not
    part of the sources at hand.  An event records the arguments its
    constructor was called with; [reblock] is [None] where the call
    leaves the keyword out. *)
Inductive event :=
| BlockEvent (user_name : string) (time : datetime) (expiry : value)
    (reblock : option bool)
| UnblockEvent (user_name : string) (time : datetime).

(** Modelled from the spec: the source document of [spi_utils], a page
    title with the page's text, in the order [SpiSourceDocument] is
    called with. *)
Record SpiSourceDocument := {
  doc_title : string;
  doc_text : string
}.

(** ** The class [Wiki] *)

Section Wiki.

(** [django.conf.settings] and the wiki the handles talk to. *)
Context (settings : Settings) (wiki : MediaWiki).

(** [time_utils.struct_to_datetime], [dateutil.parser.isoparse] and
    [datetime.datetime.fromisoformat]; the parsers may raise. *)
Context (struct_to_datetime : struct_time -> datetime)
        (isoparse : string -> result datetime)
        (fromisoformat : string -> result datetime).

(** [mwparserfromhell]: the template nodes [filter_templates] visits in
    the parse of a text, in document order; [name.matches]; [get], which
    raises [ValueError] when the template has no such parameter; [str]. *)
Context {Template Param : Type}
        (templates : string -> list Template)
        (name_matches : Template -> string -> bool)
        (Template_get : Template -> Z -> option Param)
        (Param_str : Param -> string).

(** [spi_utils]: the constructor of [SpiCase], given the documents, and
    [SpiCase.find_all_ips]. *)
Context {SpiCase SpiIpInfo : Type}
        (SpiCase_new : list SpiSourceDocument -> result SpiCase)
        (find_all_ips : SpiCase -> result (list SpiIpInfo)).

(** [struct_to_datetime(v)]: the helper is given the struct_time the
    client put under ['timestamp']; any other value is a [TypeError]. *)
Definition to_datetime (v : value) : result datetime :=
  match v with
  | VTime t => inr (struct_to_datetime t)
  | _ => inl TypeError
  end.

(** [v and isoparse(v)] *)
Definition and_isoparse (v : value) : result value :=
  if truthy v then
    match v with
    | VStr s =>
        match isoparse s with
        | inr d => inr (VDatetime d)
        | inl e => inl e
        end
    | _ => inl TypeError
    end
  else inr v.

(** [self.site.pages[title].text()] *)
Definition pages_text (title : string) : M string :=
  let* s := get_site in
  run* call s (PageText title) in
  ret (page_text wiki title).

Definition get_mw_site (request : option HttpRequest) : M Site :=
  let user := get_user <$> request in
  let* auth_info :=
    match user with
    | None => ret ∅
    | Some u =>
        if is_anonymous u then ret ∅
        else
          let* row := lift (social_auth_get u "mediawiki") in
          let* access_token := lift (getitem (extra_data row) "access_token") in
          let* oauth_token := lift (subscript access_token "oauth_token") in
          let* oauth_token_secret :=
            lift (subscript access_token "oauth_token_secret") in
          ret (<["consumer_token" := SOCIAL_AUTH_MEDIAWIKI_KEY settings]>
               (<["consumer_secret" := SOCIAL_AUTH_MEDIAWIKI_SECRET settings]>
                (<["access_token" := oauth_token]>
                 (<["access_secret" := oauth_token_secret]> ∅))))
    end in
  new_Site (MEDIAWIKI_SITE_NAME settings) (MEDIAWIKI_USER_AGENT settings)
           auth_info.

(** [Wiki(request)] *)
Definition Wiki_init (request : option HttpRequest) : M unit :=
  let* s := get_mw_site request in
  set_site s.

Definition get_current_case_names : M (list string) :=
  let* overview :=
    pages_text "Wikipedia:Sockpuppet investigations/Cases/Overview" in
  let found :=
    filter (fun t => name_matches t "SPIstatusentry" = true)
           (templates overview) in
  lift (map_result
          (fun t => match Template_get t 1 with
                    | Some p => inr (Param_str p)
                    | None => inl (ValueError "1")
                    end) found).

Definition page_exists_ (title : string) : M value :=
  let* s := get_site in
  run* call s (PageExists title) in
  ret (page_exists wiki title).

Definition get_case_ips (case_name : string) : M (list SpiIpInfo) :=
  let case_title :=
    percent_s "Wikipedia:Sockpuppet investigations/" "" case_name in
  let archive_title := percent_s "" "/Archive" case_title in
  let* case_text := pages_text case_title in
  let case_doc := {| doc_title := case_title; doc_text := case_text |} in
  let docs := [case_doc] in
  let* archive_text := pages_text archive_title in
  let docs :=
    if truthy (VStr archive_text)
    then docs ++ [{| doc_title := archive_title; doc_text := archive_text |}]
    else docs in
  let* case := lift (SpiCase_new docs) in
  lift (find_all_ips case).

Definition get_registration_time (user : string) : M value :=
  let* s := get_site in
  run* call s (Users [user] ["registration"]) in
  let registrations := users wiki [user] ["registration"] in
  let* userinfo :=
    match registrations with
    | r :: _ => ret r
    | [] => raise StopIteration
    end in
  match getitem userinfo "registration" with
  | inr v => ret v
  | inl (KeyError _) => ret VNone
  | inl e => raise e
  end.

(** [use_archive and self.site.pages[archive_title].text()]: the text
    when the page is read, [None] for the [False] that skips it. *)
Definition and_pages_text (use_archive : bool) (title : string)
  : M (option string) :=
  if use_archive
  then let* t := pages_text title in ret (Some t)
  else ret None.

Definition get_case (master_name : string) (use_archive : bool)
  : M SpiCase :=
  let case_title :=
    percent_s "Wikipedia:Sockpuppet investigations/" "" master_name in
  let archive_title := percent_s "" "/Archive" case_title in
  let* case_text := pages_text case_title in
  let case_doc := {| doc_title := case_title; doc_text := case_text |} in
  let docs := [case_doc] in
  let* archive_text := and_pages_text use_archive archive_title in
  let docs :=
    match archive_text with
    | Some t =>
        if truthy (VStr t)
        then docs ++ [{| doc_title := archive_title; doc_text := t |}]
        else docs
    | None => docs
    end in
  lift (SpiCase_new docs).

Definition user_contributions (user_name : string) : G WikiContrib :=
  gen* s := get_site in
  gen* _ := call s (UserContributions user_name) in
  gen_for (usercontributions wiki user_name) (fun contrib =>
    gen* c :=
      (let* ts := lift (getitem contrib "timestamp") in
       let* dt := lift (to_datetime ts) in
       let* t := lift (getitem contrib "title") in
       let* c := lift (getitem contrib "comment") in
       ret (WikiContrib_new dt t c None)) in
    yield c).

(** The body of the inner loop of [deleted_user_contributions], up to
    the value it yields. *)
Definition deleted_revision (page : gmap string value) (revision : value)
  : M WikiContrib :=
  run* log (LogDebug "deleted revision = %s" revision) in
  let* rev_ts := lift (subscript revision "timestamp") in
  let* ts :=
    match rev_ts with
    | VStr rev_ts =>
        if endswith rev_ts "Z"
        then lift (fromisoformat (drop_last rev_ts +:+ "+00:00"))
        else raise (ValueError (percent_s "Unparsable timestamp: " "" rev_ts))
    | _ => raise (AttributeError "endswith")
    end in
  let* t := lift (getitem page "title") in
  let* c := lift (subscript revision "comment") in
  ret (WikiContrib_new ts t c (Some false)).

Definition deleted_user_contributions (user_name : string) : G WikiContrib :=
  let kwargs : gmap string value :=
    list_to_map (generate_kwargs "adr" [("user", VStr user_name)]) in
  let kwargs := <["uselang" := VNone]> kwargs in
  gen* s := get_site in
  gen* _ := call s (Listing "alldeletedrevisions" "adr" kwargs) in
  gen_for (listing wiki "alldeletedrevisions" "adr" kwargs) (fun page =>
    gen* _ := lift (getitem page "title") in
    gen* revisions :=
      (let* rs := lift (getitem page "revisions") in lift (iterate rs)) in
    gen_for revisions (fun revision =>
      gen* c := deleted_revision page revision in
      yield c)).

(** The body of the loop of [get_user_blocks]; [events] is the list
    built so far. *)
Definition block_entry (user_name : string) (block : gmap string value)
    (events : list event) : M (list event) :=
  let* action := lift (getitem block "action") in
  let* ts := lift (getitem block "timestamp") in
  let* time := lift (to_datetime ts) in
  let* params := lift (getitem block "params") in
  let* mw_expiry := lift (dict_get params "expiry") in
  let* expiry := lift (and_isoparse mw_expiry) in
  let events :=
    if eq_str action "block"
    then events ++ [BlockEvent user_name time expiry None]
    else events in
  let events :=
    if eq_str action "reblock"
    then events ++ [BlockEvent user_name time expiry (Some true)]
    else events in
  if eq_str action "unblock"
  then ret (events ++ [UnblockEvent user_name time])
  else
    run* log (LogError "Ignoring block due to unknown block action in %s"
                       (VDict block)) in
    ret events.

Definition get_user_blocks (user_name : string) : M (list event) :=
  let title := "User:" +:+ user_name in
  let* s := get_site in
  run* call s (LogEvents title "block" "newer") in
  let blocks := logevents wiki title "block" "newer" in
  for_acc blocks [] (block_entry user_name).

End Wiki.

(** ** A small wiki to run the methods on *)

Module Example.

(** The value of a decimal digit. *)
Definition digit (a : Ascii.ascii) : option Z :=
  let n := Z.of_nat (Ascii.nat_of_ascii a) in
  if ((48 <=? n) && (n <=? 57))%Z then Some (n - 48)%Z else None.

(** A string of decimal digits, read after [acc]. *)
Fixpoint number (s : string) (acc : Z) : option Z :=
  match s with
  | EmptyString => Some acc
  | String a s' =>
      match digit a with
      | Some d => number s' (10 * acc + d)%Z
      | None => None
      end
  end.

(** The [n] decimal digits at position [i] of [s]. *)
Definition field (s : string) (i n : nat) : option Z :=
  let f := String.substring i n s in
  if Nat.eqb (String.length f) n then number f 0 else None.

(** A strict reader for [YYYY-MM-DDTHH:MM:SS+00:00], the one form the
    interface passes to [fromisoformat] for a MediaWiki timestamp; like
    Python's it rejects a string that is too short to hold a date. *)
Definition fromisoformat (s : string) : result datetime :=
  let seps :=
    [String.substring 4 1 s; String.substring 7 1 s; String.substring 10 1 s;
     String.substring 13 1 s; String.substring 16 1 s;
     String.substring 19 6 s] in
  match field s 0 4, field s 5 2, field s 8 2,
        field s 11 2, field s 14 2, field s 17 2 with
  | Some y, Some mo, Some d, Some h, Some mi, Some se =>
      if bool_decide (seps = ["-"; "-"; "T"; ":"; ":"; "+00:00"]
                      ∧ String.length s = 25%nat)
      then inr {| year := y; month := mo; day := d; hour := h; minute := mi;
                  second := se; microsecond := 0; tzoffset := Some 0%Z |}
      else inl (ValueError ("Invalid isoformat string: " +:+ s))
  | _, _, _, _, _, _ => inl (ValueError ("Invalid isoformat string: " +:+ s))
  end.

(** A reader for the [YYYY-MM-DDTHH:MM:SSZ] timestamps of the API. *)
Definition isoparse (s : string) : result datetime :=
  if endswith s "Z" then fromisoformat (drop_last s +:+ "+00:00")
  else inl (ValueError ("ISO string too short: " +:+ s)).

(** The calendar fields of a struct_time, read as UTC. *)
Definition struct_to_datetime (t : struct_time) : datetime :=
  {| year := tm_year t; month := tm_mon t; day := tm_mday t;
     hour := tm_hour t; minute := tm_min t; second := tm_sec t;
     microsecond := 0; tzoffset := Some 0%Z |}.

(** Template nodes: a name and the parameters as (name, shown key,
    value), positional ones carrying their position as name. *)
Record Template := {
  t_name : string;
  t_params : list (string * bool * string)
}.

Definition Param : Type := string * bool * string.

Definition name_matches (t : Template) (s : string) : bool :=
  String.eqb (t_name t) s.

(** The last parameter of that name, as [Template.get] finds it. *)
Definition Template_get (t : Template) (n : Z) : option Param :=
  head (filter (fun p => p.1.1 = pretty n) (reverse (t_params t))).

(** [str] of a parameter: the value, preceded by its key when shown. *)
Definition Param_str (p : Param) : string :=
  if p.1.2 then p.1.1 +:+ "=" +:+ p.2 else p.2.

Definition overview_title : string :=
  "Wikipedia:Sockpuppet investigations/Cases/Overview".

(** An overview page with two entries, and one whose second entry has no
    parameters at all. *)
Definition overview : string :=
  "{{SPIstatusheader}}{{SPIstatusentry|Alice|open}}{{SPIstatusentry|Bob|CU}}".

Definition overview_bare : string :=
  "{{SPIstatusentry|Alice|open}}{{SPIstatusentry}}".

Definition entry (who status : string) : Template :=
  {| t_name := "SPIstatusentry";
     t_params := [("1", false, who); ("2", false, status)] |}.

(** The template nodes of the two pages. *)
Definition templates (text : string) : list Template :=
  if String.eqb text overview
  then [{| t_name := "SPIstatusheader"; t_params := [] |};
        entry "Alice" "open"; entry "Bob" "CU"]
  else if String.eqb text overview_bare
  then [entry "Alice" "open"; {| t_name := "SPIstatusentry"; t_params := [] |}]
  else [].

(** Cases are kept as their documents; the addresses of a case are the
    texts of its documents. *)
Definition SpiCase_new (docs : list SpiSourceDocument)
  : result (list SpiSourceDocument) := inr docs.

Definition find_all_ips (case : list SpiSourceDocument)
  : result (list string) := inr (doc_text <$> case).

Definition stamp : struct_time :=
  {| tm_year := 2020; tm_mon := 6; tm_mday := 1; tm_hour := 12; tm_min := 30;
     tm_sec := 0; tm_wday := 0; tm_yday := 153; tm_isdst := 0 |}.

Definition log_entry (action : string) (params : gmap string value)
  : gmap string value :=
  {[ "action" := VStr action; "timestamp" := VTime stamp;
     "params" := VDict params ]}.

Definition contribution (t c : string) : gmap string value :=
  {[ "timestamp" := VTime stamp; "title" := VStr t; "comment" := VStr c ]}.

Definition revision (ts c : string) : value :=
  VDict {[ "timestamp" := VStr ts; "comment" := VStr c ]}.

Definition deleted_page (t : string) (revs : list value) : gmap string value :=
  {[ "title" := VStr t; "revisions" := VList revs ]}.

(** The wiki: one case with an archive, one without; user [Old] has no
    recorded registration, user [Ghost] does not exist. *)
Definition wiki : MediaWiki := {|
  page_text t :=
    if String.eqb t overview_title then overview
    else if String.eqb t "Wikipedia:Sockpuppet investigations/Alice"
    then "10.0.0.1"
    else if String.eqb t "Wikipedia:Sockpuppet investigations/Alice/Archive"
    then "10.0.0.2"
    else if String.eqb t "Wikipedia:Sockpuppet investigations/Bob"
    then "10.0.0.3"
    else "";
  page_exists t := VBool (String.eqb t overview_title);
  users us _ :=
    (fun u =>
       if String.eqb u "Old"
       then {[ "name" := VStr u; "registration" := VNone ]}
       else if String.eqb u "Ghost"
       then {[ "name" := VStr u; "missing" := VStr "" ]}
       else {[ "name" := VStr u;
               "registration" := VStr "2020-06-01T12:30:00Z" ]}) <$> us;
  usercontributions u :=
    if String.eqb u "Alice"
    then [contribution "Main Page" "fix"; contribution "Talk:Main Page" "re"]
    else [];
  listing _ _ kwargs :=
    match kwargs !! "adruser" with
    | Some (VStr "Alice") =>
        [deleted_page "Spam" [revision "2020-06-01T12:30:00Z" "new";
                              revision "2020-06-02T08:00:00Z" "more"];
         deleted_page "Hoax" [revision "2020-06-03T09:15:00Z" "hoax"]]
    | Some (VStr "Bob") =>
        [deleted_page "Spam" [revision "2020-06-01T12:30:00Z" "new";
                              revision "2020-06-02T08:00:00" "more";
                              revision "2020-06-03T09:15:00Z" "last"]]
    | Some (VStr "Carol") =>
        [deleted_page "Spam" [revision "Z" "new"]]
    | _ => []
    end;
  logevents t _ _ :=
    if String.eqb t "User:Alice"
    then [log_entry "block" {[ "duration" := VStr "1 week";
                               "expiry" := VStr "2020-06-08T12:30:00Z" ]};
          log_entry "unblock" ∅;
          log_entry "reblock" {[ "duration" := VStr "infinite" ]};
          log_entry "protect" ∅]
    else []
|}.

(** The same wiki after an edit left a bare entry on the overview. *)
Definition wiki_bare : MediaWiki := {|
  page_text t := if String.eqb t overview_title then overview_bare else "";
  page_exists := page_exists wiki;
  users := users wiki;
  usercontributions := usercontributions wiki;
  listing := listing wiki;
  logevents := logevents wiki
|}.

Definition settings : Settings := {|
  MEDIAWIKI_SITE_NAME := VStr "en.wikipedia.org";
  MEDIAWIKI_USER_AGENT := VStr "spi-tools";
  SOCIAL_AUTH_MEDIAWIKI_KEY := VStr "key";
  SOCIAL_AUTH_MEDIAWIKI_SECRET := VNone
|}.

Definition mediawiki_row : UserSocialAuth := {|
  provider := "mediawiki";
  extra_data :=
    {[ "access_token" :=
         VDict {[ "oauth_token" := VStr "tok";
                  "oauth_token_secret" := VStr "sec" ]} ]}
|}.

(** A user who signed in through MediaWiki, and one who signed in with
    a password of the site itself. *)
Definition editor : HttpRequest :=
  {| session_user := StoredUser "Alice" [mediawiki_row] |}.

Definition staff : HttpRequest :=
  {| session_user := StoredUser "admin" [] |}.

Definition visitor : HttpRequest := {| session_user := AnonymousUser |}.

Definition fresh : state :=
  {| self_site := None; constructed := []; traffic := []; logged := [] |}.

Definition anonymous_site : Site :=
  {| host := VStr "en.wikipedia.org"; clients_useragent := VStr "spi-tools";
     auth_info := ∅ |}.

(** The state after [Wiki()] on a fresh state. *)
Definition ready : state :=
  {| self_site := Some anonymous_site; constructed := [anonymous_site];
     traffic := []; logged := [] |}.

End Example.

(** ** What the methods are to do *)

(** A computation keeps the handle when it neither assigns the [site]
    attribute nor constructs a [Site]. *)
Definition keeps_handle {A} (m : M A) : Prop :=
  ∀ σ, self_site (m σ).2 = self_site σ ∧ constructed (m σ).2 = constructed σ.

Definition gen_keeps_handle {A} (g : G A) : Prop :=
  ∀ σ, self_site (g σ).2 = self_site σ ∧ constructed (g σ).2 = constructed σ.

(** Every result a computation returns, and every item a generator
    yields, satisfies [P]. *)
Definition returns_only {A} (P : A → Prop) (m : M A) : Prop :=
  ∀ σ a σ', m σ = (inr a, σ') → P a.

Definition yields_only {A} (P : A → Prop) (g : G A) : Prop :=
  ∀ σ, Forall P (g σ).1.1.


(** The page of a case and of its archive. *)
Definition case_page (name : string) : string :=
  "Wikipedia:Sockpuppet investigations/" +:+ name.

Definition archive_page (name : string) : string :=
  case_page name +:+ "/Archive".

(** The request carries an authenticated, non-anonymous user. *)
Definition signed_in (request : option HttpRequest) : bool :=
  match request with
  | Some r => negb (is_anonymous (get_user r))
  | None => false
  end.

(** The access token and secret of the user's mediawiki social-auth
    record. *)
Definition mediawiki_tokens (u : User) : result (value * value) :=
  match social_auth_get u "mediawiki" with
  | inl e => inl e
  | inr row =>
      match getitem (extra_data row) "access_token" with
      | inl e => inl e
      | inr access_token =>
          match subscript access_token "oauth_token",
                subscript access_token "oauth_token_secret" with
          | inl e, _ => inl e
          | inr _, inl e => inl e
          | inr tok, inr sec => inr (tok, sec)
          end
      end
  end.

(** The OAuth credentials of a handle: the consumer's token and secret
    from the settings, the user's access token and secret. *)
Definition oauth_credentials (settings : Settings) (tok sec : value)
  : gmap string value :=
  <["consumer_token" := SOCIAL_AUTH_MEDIAWIKI_KEY settings]>
    (<["consumer_secret" := SOCIAL_AUTH_MEDIAWIKI_SECRET settings]>
       (<["access_token" := tok]> (<["access_secret" := sec]> ∅))).

(** The state after one more handle was constructed. *)
Definition with_handle (σ : state) (site : Site) : state :=
  {| self_site := self_site σ; constructed := constructed σ ++ [site];
     traffic := traffic σ; logged := logged σ |}.

(** The arguments of the listing of a user's deleted revisions. *)
Definition deleted_query (user_name : string) : gmap string value :=
  <["uselang" := VNone]> (<["adruser" := VStr user_name]> ∅).

(** The page that lists the open cases. *)
Definition overview_page : string :=
  "Wikipedia:Sockpuppet investigations/Cases/Overview".

(** The event of an entry with the given action, in the words of the
    documentation: at most one. *)
Definition event_for (user_name : string) (action : value) (time : datetime)
    (expiry : value) : list event :=
  if eq_str action "block" then [BlockEvent user_name time expiry None]
  else if eq_str action "reblock"
       then [BlockEvent user_name time expiry (Some true)]
  else if eq_str action "unblock" then [UnblockEvent user_name time]
  else [].

(** The fields of a deleted revision and of the page it belongs to. *)
Definition revision_fields (v : value) : option (string * value) :=
  match v with
  | VDict r =>
      match r !! "timestamp", r !! "comment" with
      | Some (VStr ts), Some c => Some (ts, c)
      | _, _ => None
      end
  | _ => None
  end.


(** The methods of a constructed [Wiki], with their arguments. *)
Inductive operation :=
| Get_current_case_names
| Page_exists (title : string)
| Get_case_ips (case_name : string)
| Get_registration_time (user : string)
| Get_case (master_name : string) (use_archive : bool)
| User_contributions (user_name : string)
| Deleted_user_contributions (user_name : string)
| Get_user_blocks (user_name : string).

Section Specification.

Context (wiki : MediaWiki).
Context (struct_to_datetime : struct_time -> datetime)
        (isoparse : string -> result datetime)
        (fromisoformat : string -> result datetime).
Context {Template Param : Type}
        (templates : string -> list Template)
        (name_matches : Template -> string -> bool)
        (Template_get : Template -> Z -> option Param)
        (Param_str : Param -> string).
Context {SpiCase SpiIpInfo : Type}
        (SpiCase_new : list SpiSourceDocument -> result SpiCase)
        (find_all_ips : SpiCase -> result (list SpiIpInfo)).

(** The state an operation leaves behind, whatever it returned. *)
Definition perform (op : operation) (σ : state) : state :=
  match op with
  | Get_current_case_names =>
      (get_current_case_names wiki templates name_matches Template_get
                              Param_str σ).2
  | Page_exists t => (page_exists_ wiki t σ).2
  | Get_case_ips n => (get_case_ips wiki SpiCase_new find_all_ips n σ).2
  | Get_registration_time u => (get_registration_time wiki u σ).2
  | Get_case n a => (get_case wiki SpiCase_new n a σ).2
  | User_contributions u => (user_contributions wiki struct_to_datetime u σ).2
  | Deleted_user_contributions u =>
      (deleted_user_contributions wiki fromisoformat u σ).2
  | Get_user_blocks u =>
      (get_user_blocks wiki struct_to_datetime isoparse u σ).2
  end.

(** The source document of a page of the wiki. *)
Definition document (title : string) : SpiSourceDocument :=
  {| doc_title := title; doc_text := page_text wiki title |}.

(** A block-log entry as the client returns it: an action, a
    struct_time under ['timestamp'] and a dict of parameters whose
    expiry, if there is one, [isoparse] reads.  The result is the
    action, the time as a datetime and the expiry. *)
Definition entry_fields (b : gmap string value)
  : option (value * datetime * value) :=
  match b !! "action", b !! "timestamp", b !! "params" with
  | Some action, Some (VTime t), Some (VDict p) =>
      match and_isoparse isoparse (default VNone (p !! "expiry")) with
      | inr expiry => Some (action, struct_to_datetime t, expiry)
      | inl _ => None
      end
  | _, _, _ => None
  end.

Definition events_of (user_name : string) (b : gmap string value)
  : list event :=
  match entry_fields b with
  | Some (action, time, expiry) => event_for user_name action time expiry
  | None => []
  end.

(** A contribution record as the client returns it. *)
Definition contribution_record (r : gmap string value) : Prop :=
  ∃ t ti co, r !! "timestamp" = Some (VTime t) ∧ r !! "title" = Some ti
             ∧ r !! "comment" = Some co.

(** [c] carries the time, title and comment of record [r]. *)
Definition contrib_of (r : gmap string value) (c : WikiContrib) : Prop :=
  ∃ t, r !! "timestamp" = Some (VTime t)
       ∧ timestamp c = struct_to_datetime t
       ∧ r !! "title" = Some (title c)
       ∧ r !! "comment" = Some (comment c).

(** What one deleted revision leads to. *)
Definition revision_outcome (rev : value * string * value)
  : result WikiContrib :=
  let '(t, ts, c) := rev in
  if endswith ts "Z"
  then match fromisoformat (drop_last ts +:+ "+00:00") with
       | inr d => inr {| timestamp := d; title := t; comment := c;
                         is_live := false |}
       | inl e => inl e
       end
  else inl (ValueError ("Unparsable timestamp: " +:+ ts)).

End Specification.

(** ** The project: [tools_app/settings.py] and [tools_app/apps.py] *)

Module Project.

Import Stdlib.Strings.Ascii.

(** What can end the import of the settings module or [ready]: the
    module's own [RuntimeError], a [TypeError] or [IndexError] of the
    standard library, or what [tools_app.git.get_info] raised. *)
Inductive failure :=
| RuntimeError (msg : string)
| PathTypeError
| IndexError
| Raised (e : exn).

(** Character [c] occurs in [s]. *)
Fixpoint has_char (c : ascii) (s : string) : bool :=
  match s with
  | EmptyString => false
  | String c' s' => Ascii.eqb c' c || has_char c s'
  end.

(** The longest prefix without a slash, and what follows it. *)
Fixpoint segment (s : string) : string * string :=
  match s with
  | EmptyString => ("", "")
  | String c s' =>
      if Ascii.eqb c "/"%char then ("", s)
      else let '(seg, rest) := segment s' in (String c seg, rest)
  end.

(** The pattern after its leading [.*], tried at the head of [s]: a
    slash, the group [tool_name] of characters other than a slash, then
    [/www/python/src].  The result is the group when this matches. *)
Definition tool_name_here (s : string) : option string :=
  match s with
  | EmptyString => None
  | String c s' =>
      if Ascii.eqb c "/"%char
      then let '(seg, rest) := segment s' in
           if String.prefix "/www/python/src" rest then Some seg else None
      else None
  end.

(** [re.match] of the module's pattern against [s]: the leading [.*]
    takes as many characters as it can, none of them a newline, and
    gives them back one by one until the rest of the pattern matches. *)
Fixpoint tool_name_match (s : string) : option string :=
  match s with
  | EmptyString => tool_name_here s
  | String c s' =>
      if Ascii.eqb c "010"%char then tool_name_here s
      else match tool_name_match s' with
           | Some name => Some name
           | None => tool_name_here s
           end
  end.

(** [os.path.join(a, 'logs')] *)
Definition join_logs (a : option string) : failure + string :=
  match a with
  | None => inl PathTypeError
  | Some a =>
      if String.eqb a "" || endswith a "/" then inr (a +:+ "logs")
      else inr (a +:+ "/" +:+ "logs")
  end.

(** What the module reads from outside: the two paths [os.path] derives
    from [__file__], the process environment and the result of
    [tools_app.git.get_info()]. *)
Record Outside := {
  base_dir : string;
  www_dir : string;
  environ : gmap string string;
  version_info : result value
}.

(** The settings the module computes (the literal tables of
    applications, middleware and validators are left out). *)
Record Module_settings := {
  BASE_DIR : string;
  WWW_DIR : string;
  LOG_DIR : string;
  VERSION_ID : value;
  TOOL_NAME : string;
  SECRET_KEY : option string;
  DEBUG : bool;
  MEDIAWIKI_KEY : option string;
  MEDIAWIKI_SECRET : option string;
  MEDIAWIKI_URL : string;
  MEDIAWIKI_CALLBACK : string;
  STATIC_URL : string
}.

(** The module body, top to bottom. *)
Definition load (o : Outside) : failure + Module_settings :=
  match join_logs (environ o !! "HOME") with
  | inl e => inl e
  | inr log_dir =>
      match version_info o with
      | inl e => inl (Raised e)
      | inr version_id =>
          match tool_name_match (base_dir o) with
          | None =>
              inl (RuntimeError
                     (percent_s "BASE_DIR doesn't make sense: " ""
                                (base_dir o)))
          | Some tool_name =>
              let debug := true in
              inr {| BASE_DIR := base_dir o;
                     WWW_DIR := www_dir o;
                     LOG_DIR := log_dir;
                     VERSION_ID := version_id;
                     TOOL_NAME := tool_name;
                     SECRET_KEY := environ o !! "DJANGO_SECRET";
                     DEBUG := debug;
                     MEDIAWIKI_KEY := environ o !! "MEDIAWIKI_KEY";
                     MEDIAWIKI_SECRET := environ o !! "MEDIAWIKI_SECRET";
                     MEDIAWIKI_URL := "https://meta.wikimedia.org/w/index.php";
                     MEDIAWIKI_CALLBACK :=
                       percent_s "https://"
                         ".toolforge.org/oauth/complete/mediawiki/" tool_name;
                     STATIC_URL :=
                       if debug then "/" +:+ tool_name +:+ "/static/"
                       else "//tools-static.wmflabs.org/" +:+ tool_name +:+ "/"
                  |}
          end
      end
  end.

(** [needle in hay] on strings. *)
Fixpoint contains (needle hay : string) : bool :=
  String.prefix needle hay
  || match hay with
     | EmptyString => false
     | String _ hay' => contains needle hay'
     end.

(** A record given to the logger of [tools_app.apps] at level critical:
    the name and the argument vector the message is formatted from. *)
Record critical := { app_name : string; app_argv : list string }.

(** [ToolsAppConfig.ready]: what is logged, and how the call ends. *)
Definition ready (argv : list string) : list critical * (failure + unit) :=
  match argv with
  | [] => ([], inl IndexError)
  | argv0 :: _ =>
      if negb (contains "manage.py" argv0)
      then ([{| app_name := "tools_app"; app_argv := argv |}], inr tt)
      else ([], inr tt)
  end.

End Project.

(** ** More of what the methods are to do *)

(** A computation is quiet when it keeps the handle and talks to no
    wiki. *)
Definition quiet {A} (m : M A) : Prop :=
  ∀ σ, self_site (m σ).2 = self_site σ
       ∧ constructed (m σ).2 = constructed σ
       ∧ traffic (m σ).2 = traffic σ.

Definition gen_quiet {A} (g : G A) : Prop :=
  ∀ σ, self_site (g σ).2 = self_site σ
       ∧ constructed (g σ).2 = constructed σ
       ∧ traffic (g σ).2 = traffic σ.

(** The calls an operation makes, in order. *)
Definition calls_of (op : operation) : list api_call :=
  match op with
  | Get_current_case_names => [PageText overview_page]
  | Page_exists t => [PageExists t]
  | Get_case_ips n => [PageText (case_page n); PageText (archive_page n)]
  | Get_registration_time u => [Users [u] ["registration"]]
  | Get_case n a =>
      PageText (case_page n) :: if a then [PageText (archive_page n)] else []
  | User_contributions u => [UserContributions u]
  | Deleted_user_contributions u =>
      [Listing "alldeletedrevisions" "adr" (deleted_query u)]
  | Get_user_blocks u => [LogEvents ("User:" +:+ u) "block" "newer"]
  end.

(** The user an event is about. *)
Definition event_user (e : event) : string :=
  match e with
  | BlockEvent u _ _ _ => u
  | UnblockEvent u _ => u
  end.

(** The entry's action is ['unblock']. *)
Definition is_unblock (b : gmap string value) : bool :=
  match b !! "action" with
  | Some a => eq_str a "unblock"
  | None => false
  end.

(** The record the loop of [get_user_blocks] gives to the logger. *)
Definition ignored (b : gmap string value) : log_record :=
  LogError "Ignoring block due to unknown block action in %s" (VDict b).

(** More of the example wiki: a log with an entry that lost its
    parameters, contributions with a hidden edit summary, a user the
    query has no record for. *)
Module Cases.

Definition hidden (t : string) : gmap string value :=
  {[ "timestamp" := VTime Example.stamp; "title" := VStr t;
     "commenthidden" := VStr "" ]}.

Definition wiki : MediaWiki := {|
  page_text := page_text Example.wiki;
  page_exists := page_exists Example.wiki;
  users _ _ := [];
  usercontributions u :=
    if String.eqb u "Dave"
    then [Example.contribution "Main Page" "fix"; hidden "Draft";
          Example.contribution "Talk:Main Page" "re"]
    else [];
  listing := listing Example.wiki;
  logevents t _ _ :=
    if String.eqb t "User:Dave"
    then [Example.log_entry "block" ∅;
          {[ "action" := VStr "unblock";
             "timestamp" := VTime Example.stamp ]};
          Example.log_entry "reblock" ∅]
    else []
|}.

(** A wiki on which every block is without an end. *)
Definition indefinite : MediaWiki := {|
  page_text := page_text Example.wiki;
  page_exists := page_exists Example.wiki;
  users := users Example.wiki;
  usercontributions := usercontributions Example.wiki;
  listing := listing Example.wiki;
  logevents _ _ _ :=
    [Example.log_entry "block" {[ "duration" := VStr "infinite" ]};
     Example.log_entry "unblock" ∅;
     Example.log_entry "reblock" {[ "duration" := VStr "infinite" ]}]
|}.

(** The way the tool is laid out on its host. *)
Definition outside : Project.Outside := {|
  Project.base_dir := "/data/project/spi-tools-dev/www/python/src";
  Project.www_dir := "/data/project/spi-tools-dev/www";
  Project.environ := {[ "HOME" := "/data/project/spi-tools-dev";
                        "MEDIAWIKI_KEY" := "key" ]};
  Project.version_info := inr (VStr "v1")
|}.

(** The settings that layout gives. *)
Definition loaded : Project.Module_settings := {|
  Project.BASE_DIR := "/data/project/spi-tools-dev/www/python/src";
  Project.WWW_DIR := "/data/project/spi-tools-dev/www";
  Project.LOG_DIR := "/data/project/spi-tools-dev/logs";
  Project.VERSION_ID := VStr "v1";
  Project.TOOL_NAME := "spi-tools-dev";
  Project.SECRET_KEY := None;
  Project.DEBUG := true;
  Project.MEDIAWIKI_KEY := Some "key";
  Project.MEDIAWIKI_SECRET := None;
  Project.MEDIAWIKI_URL := "https://meta.wikimedia.org/w/index.php";
  Project.MEDIAWIKI_CALLBACK :=
    "https://spi-tools-dev.toolforge.org/oauth/complete/mediawiki/";
  Project.STATIC_URL := "/spi-tools-dev/static/"
|}.

End Cases.

(** ** Strings and the monad *)

Lemma append_empty_r (s : string) : s +:+ "" = s.
Proof.
  induction s as [|a s IH]; [done|].
  change (String a (s +:+ "") = String a s). by rewrite IH.
Qed.

Lemma percent_s_case_page (name : string) :
  percent_s "Wikipedia:Sockpuppet investigations/" "" name = case_page name.
Proof. unfold percent_s, case_page. by rewrite append_empty_r. Qed.

Lemma percent_s_archive_page (name : string) :
  percent_s "" "/Archive" (case_page name) = archive_page name.
Proof. reflexivity. Qed.

Lemma truthy_VStr (s : string) : truthy (VStr s) = true ↔ s ≠ "".
Proof.
  simpl. destruct (String.eqb_spec s ""); simpl; split; congruence.
Qed.

Lemma truthy_VStr_false (s : string) : truthy (VStr s) = false ↔ s = "".
Proof.
  simpl. destruct (String.eqb_spec s ""); simpl; split; congruence.
Qed.

(** A page read through the handle of a constructed [Wiki] returns the
    page's text and adds one call to the traffic. *)
Lemma pages_text_run (wiki : MediaWiki) (title : string) (s : Site) (σ : state) :
  self_site σ = Some s →
  pages_text wiki title σ =
    (inr (page_text wiki title),
     {| self_site := self_site σ; constructed := constructed σ;
        traffic := traffic σ ++ [(s, PageText title)]; logged := logged σ |}).
Proof.
  intros Hs. destruct σ as [site cs tr lg]. simpl in Hs. subst site.
  reflexivity.
Qed.

Section Properties.

Context (settings : Settings) (wiki : MediaWiki).
Context (struct_to_datetime : struct_time -> datetime)
        (isoparse : string -> result datetime)
        (fromisoformat : string -> result datetime).
Context {Template Param : Type}
        (templates : string -> list Template)
        (name_matches : Template -> string -> bool)
        (Template_get : Template -> Z -> option Param)
        (Param_str : Param -> string).
Context {SpiCase SpiIpInfo : Type}
        (SpiCase_new : list SpiSourceDocument -> result SpiCase)
        (find_all_ips : SpiCase -> result (list SpiIpInfo)).

(** ** Cases *)

(** The documents [get_case_ips] and [get_case] gather: the case page,
    and the archive when it was read and has text. *)
Lemma get_case_run (master_name : string) (use_archive : bool) (s : Site)
    (σ : state) :
  self_site σ = Some s →
  get_case wiki SpiCase_new master_name use_archive σ =
    (SpiCase_new
       (document wiki (case_page master_name) ::
        if use_archive && truthy (VStr (page_text wiki (archive_page master_name)))
        then [document wiki (archive_page master_name)] else []),
     {| self_site := self_site σ; constructed := constructed σ;
        traffic := traffic σ ++ (s, PageText (case_page master_name)) ::
                   if use_archive
                   then [(s, PageText (archive_page master_name))] else [];
        logged := logged σ |}).
Proof.
  intros Hs. unfold get_case.
  rewrite percent_s_case_page, percent_s_archive_page.
  unfold bind at 1. rewrite (pages_text_run _ _ s) by done.
  destruct use_archive; simpl.
  - unfold bind, and_pages_text, bind, ret, lift.
    rewrite (pages_text_run _ _ s) by done. simpl.
    rewrite <- app_assoc. simpl.
    by destruct (negb _).
  - by unfold bind, ret, lift.
Qed.

(** C3: for every case name, [get_case_ips] builds the [SpiCase] from
    the document of the page [Wikipedia:Sockpuppet
    investigations/<case_name>], together with the document of its
    [/Archive] subpage exactly when the archive's text is not empty,
    and returns what [find_all_ips] gives for that case. *)
Theorem get_case_ips_documents (case_name : string) (s : Site) (σ : state) :
  self_site σ = Some s →
  ∃ docs,
    (get_case_ips wiki SpiCase_new find_all_ips case_name σ).1 =
      match SpiCase_new docs with
      | inr case => find_all_ips case
      | inl e => inl e
      end
    ∧ (page_text wiki (archive_page case_name) ≠ "" →
       docs = [document wiki (case_page case_name);
               document wiki (archive_page case_name)])
    ∧ (page_text wiki (archive_page case_name) = "" →
       docs = [document wiki (case_page case_name)]).
Proof.
  intros Hs.
  exists (document wiki (case_page case_name) ::
          if truthy (VStr (page_text wiki (archive_page case_name)))
          then [document wiki (archive_page case_name)] else []).
  split; [|split].
  - unfold get_case_ips.
    rewrite percent_s_case_page, percent_s_archive_page.
    unfold bind at 1. rewrite (pages_text_run _ _ s) by done.
    unfold bind at 1. rewrite (pages_text_run _ _ s) by done.
    unfold bind, lift. fold (document wiki (case_page case_name)).
    fold (document wiki (archive_page case_name)).
    destruct (truthy _); simpl; by destruct (SpiCase_new _).
  - intros Hne. apply truthy_VStr in Hne. by rewrite Hne.
  - intros He. apply truthy_VStr_false in He. by rewrite He.
Qed.

(** C8: with [use_archive] false, [get_case] builds the [SpiCase] from
    the document of the current case page alone and the only page it
    asks the wiki for is the case page; with [use_archive] true the
    archive's document is added exactly when the archive's text is not
    empty. *)
Theorem get_case_archive (master_name : string) (s : Site) (σ : state) :
  self_site σ = Some s →
  ((get_case wiki SpiCase_new master_name false σ).1 =
     SpiCase_new [document wiki (case_page master_name)]
   ∧ traffic (get_case wiki SpiCase_new master_name false σ).2 =
       traffic σ ++ [(s, PageText (case_page master_name))])
  ∧ ∃ docs,
      (get_case wiki SpiCase_new master_name true σ).1 = SpiCase_new docs
      ∧ (page_text wiki (archive_page master_name) ≠ "" →
         docs = [document wiki (case_page master_name);
                 document wiki (archive_page master_name)])
      ∧ (page_text wiki (archive_page master_name) = "" →
         docs = [document wiki (case_page master_name)]).
Proof.
  intros Hs. split.
  - by rewrite (get_case_run _ _ s).
  - rewrite (get_case_run _ _ s) by done. simpl.
    eexists. split; [reflexivity|]. split.
    + intros Hne. apply truthy_VStr in Hne. simpl in Hne. by rewrite Hne.
    + intros He. apply truthy_VStr_false in He. simpl in He. by rewrite He.
Qed.

(** ** The handle *)

Lemma keeps_ret {A} (a : A) : keeps_handle (ret a).
Proof. by intros σ. Qed.

Lemma keeps_raise {A} (e : exn) : keeps_handle (raise (A:=A) e).
Proof. by intros σ. Qed.

Lemma keeps_lift {A} (r : result A) : keeps_handle (lift r).
Proof. by intros σ. Qed.

Lemma keeps_get_site : keeps_handle get_site.
Proof. by intros [[s|] cs tr lg]. Qed.

Lemma keeps_call (s : Site) (c : api_call) : keeps_handle (call s c).
Proof. by intros σ. Qed.

Lemma keeps_log (r : log_record) : keeps_handle (log r).
Proof. by intros σ. Qed.

Lemma keeps_bind {A B} (m : M A) (k : A → M B) :
  keeps_handle m → (∀ a, keeps_handle (k a)) → keeps_handle (bind m k).
Proof.
  intros Hm Hk σ. unfold bind. specialize (Hm σ).
  destruct (m σ) as [[e|a] σ']; simpl in *; [done|].
  destruct (Hk a σ') as [-> ->]. done.
Qed.

Lemma keeps_for_acc {A S} (l : list A) (body : A → S → M S) :
  (∀ x acc, keeps_handle (body x acc)) →
  ∀ acc, keeps_handle (for_acc l acc body).
Proof.
  intros Hbody. induction l as [|x l IH]; intros acc; simpl.
  - apply keeps_ret.
  - apply keeps_bind; [apply Hbody | apply IH].
Qed.

Lemma gen_keeps_done {A} : gen_keeps_handle (gen_done (A:=A)).
Proof. by intros σ. Qed.

Lemma gen_keeps_yield {A} (a : A) : gen_keeps_handle (yield a).
Proof. by intros σ. Qed.

Lemma gen_keeps_seq {A} (g1 g2 : G A) :
  gen_keeps_handle g1 → gen_keeps_handle g2 → gen_keeps_handle (gen_seq g1 g2).
Proof.
  intros H1 H2 σ. unfold gen_seq. specialize (H1 σ).
  destruct (g1 σ) as [[ys [e|]] σ']; simpl in *; [done|].
  specialize (H2 σ'). destruct (g2 σ') as [[zs e] σ'']; simpl in *.
  destruct H2 as [-> ->]. done.
Qed.

Lemma gen_keeps_for {A B} (l : list A) (body : A → G B) :
  (∀ x, gen_keeps_handle (body x)) → gen_keeps_handle (gen_for l body).
Proof.
  intros Hbody. induction l as [|x l IH]; simpl.
  - apply gen_keeps_done.
  - apply gen_keeps_seq; [apply Hbody | apply IH].
Qed.

Lemma gen_keeps_bind {A B} (m : M A) (k : A → G B) :
  keeps_handle m → (∀ a, gen_keeps_handle (k a)) →
  gen_keeps_handle (gen_bind m k).
Proof.
  intros Hm Hk σ. unfold gen_bind. specialize (Hm σ).
  destruct (m σ) as [[e|a] σ']; simpl in *; [done|].
  destruct (Hk a σ') as [-> ->]. done.
Qed.

Create HintDb keeps.
#[local] Hint Resolve keeps_ret keeps_raise keeps_lift keeps_get_site
  keeps_call keeps_log gen_keeps_done gen_keeps_yield : keeps.

(** One step of a proof that a method keeps the handle: a primitive, or
    a sequencing or branching construct. *)
Ltac keeps_step :=
  first
    [ solve [auto with keeps]
    | apply keeps_bind; [|intros ?]
    | apply gen_keeps_bind; [|intros ?]
    | apply keeps_for_acc; intros ? ?
    | apply gen_keeps_for; intros ?
    | match goal with
      | |- keeps_handle (match ?x with _ => _ end) => destruct x
      | |- gen_keeps_handle (match ?x with _ => _ end) => destruct x
      end ].

Lemma keeps_pages_text (title : string) : keeps_handle (pages_text wiki title).
Proof. unfold pages_text. repeat keeps_step. Qed.

#[local] Hint Resolve keeps_pages_text : keeps.

Lemma keeps_get_current_case_names :
  keeps_handle (get_current_case_names wiki templates name_matches
                                       Template_get Param_str).
Proof. unfold get_current_case_names. repeat keeps_step. Qed.

Lemma keeps_page_exists (title : string) :
  keeps_handle (page_exists_ wiki title).
Proof. unfold page_exists_. repeat keeps_step. Qed.

Lemma keeps_get_case_ips (case_name : string) :
  keeps_handle (get_case_ips wiki SpiCase_new find_all_ips case_name).
Proof. unfold get_case_ips. repeat keeps_step. Qed.

Lemma keeps_get_registration_time (user : string) :
  keeps_handle (get_registration_time wiki user).
Proof. unfold get_registration_time. repeat keeps_step. Qed.

Lemma keeps_get_case (master_name : string) (use_archive : bool) :
  keeps_handle (get_case wiki SpiCase_new master_name use_archive).
Proof. unfold get_case, and_pages_text. repeat keeps_step. Qed.

Lemma keeps_user_contributions (user_name : string) :
  gen_keeps_handle (user_contributions wiki struct_to_datetime user_name).
Proof. unfold user_contributions. repeat keeps_step. Qed.

Lemma keeps_deleted_user_contributions (user_name : string) :
  gen_keeps_handle (deleted_user_contributions wiki fromisoformat user_name).
Proof.
  unfold deleted_user_contributions, deleted_revision. repeat keeps_step.
Qed.

Lemma keeps_get_user_blocks (user_name : string) :
  keeps_handle (get_user_blocks wiki struct_to_datetime isoparse user_name).
Proof. unfold get_user_blocks, block_entry. repeat keeps_step. Qed.

Lemma perform_keeps (op : operation) (σ : state) :
  let σ' := perform wiki struct_to_datetime isoparse fromisoformat templates
                    name_matches Template_get Param_str SpiCase_new
                    find_all_ips op σ in
  self_site σ' = self_site σ ∧ constructed σ' = constructed σ.
Proof.
  destruct op; simpl.
  - apply keeps_get_current_case_names.
  - apply keeps_page_exists.
  - apply keeps_get_case_ips.
  - apply keeps_get_registration_time.
  - apply keeps_get_case.
  - apply keeps_user_contributions.
  - apply keeps_deleted_user_contributions.
  - apply keeps_get_user_blocks.
Qed.

(** What [get_mw_site] does, by the user of the request. *)
Lemma get_mw_site_run (request : option HttpRequest) (σ : state) :
  get_mw_site settings request σ =
    let build auth :=
      let site := {| host := MEDIAWIKI_SITE_NAME settings;
                     clients_useragent := MEDIAWIKI_USER_AGENT settings;
                     auth_info := auth |} in
      (inr site, with_handle σ site) in
    match request with
    | Some r =>
        if is_anonymous (get_user r) then build ∅
        else match mediawiki_tokens (get_user r) with
             | inr (tok, sec) => build (oauth_credentials settings tok sec)
             | inl e => (inl e, σ)
             end
    | None => build ∅
    end.
Proof.
  unfold get_mw_site, mediawiki_tokens.
  destruct request as [r|]; simpl; [|done].
  destruct (is_anonymous (get_user r)); [done|].
  unfold bind, lift, ret, new_Site.
  destruct (social_auth_get _ _) as [e|row]; [done|].
  destruct (getitem (extra_data row) _) as [e|tok]; [done|].
  destruct (subscript tok "oauth_token") as [e|t1];
    destruct (subscript tok "oauth_token_secret") as [e'|t2]; done.
Qed.

(** C7: constructing a [Wiki] creates exactly one client handle and
    stores it in the [site] field, and no sequence of the operations of
    [Wiki] changes the [site] field or constructs another handle.  The
    constructor returns for a missing request, for an anonymous user and
    for a user whose mediawiki record holds the access token and secret,
    each time with the one handle it built as the [site] field; for a
    signed-in user without such a record it raises, and then there is
    no [Wiki] and the state is as it was. *)
Theorem single_handle :
  (∀ request σ,
     match Wiki_init settings request σ with
     | (inr _, σ') =>
         ∃ site, self_site σ' = Some site
                 ∧ constructed σ' = constructed σ ++ [site]
     | (inl _, σ') => σ' = σ
     end)
  ∧ (∀ ops σ,
       let σ' :=
         foldl (fun σ op =>
                  perform wiki struct_to_datetime isoparse fromisoformat
                          templates name_matches Template_get Param_str
                          SpiCase_new find_all_ips op σ) σ ops in
       self_site σ' = self_site σ ∧ constructed σ' = constructed σ)
  ∧ (∀ request σ,
       signed_in request = false →
       Wiki_init settings request σ =
         let site := {| host := MEDIAWIKI_SITE_NAME settings;
                        clients_useragent := MEDIAWIKI_USER_AGENT settings;
                        auth_info := ∅ |} in
         (inr tt, {| self_site := Some site;
                     constructed := constructed σ ++ [site];
                     traffic := traffic σ; logged := logged σ |}))
  ∧ (∀ r tok sec σ,
       is_anonymous (get_user r) = false →
       mediawiki_tokens (get_user r) = inr (tok, sec) →
       Wiki_init settings (Some r) σ =
         let site := {| host := MEDIAWIKI_SITE_NAME settings;
                        clients_useragent := MEDIAWIKI_USER_AGENT settings;
                        auth_info := oauth_credentials settings tok sec |} in
         (inr tt, {| self_site := Some site;
                     constructed := constructed σ ++ [site];
                     traffic := traffic σ; logged := logged σ |}))
  ∧ (∀ r e σ,
       is_anonymous (get_user r) = false →
       mediawiki_tokens (get_user r) = inl e →
       Wiki_init settings (Some r) σ = (inl e, σ)).
Proof.
  split; [|split; [|split; [|split]]].
  - intros request σ. unfold Wiki_init, bind.
    rewrite get_mw_site_run. cbv zeta.
    destruct request as [r|]; [destruct (is_anonymous (get_user r))|];
      try (simpl; eexists; split; reflexivity).
    destruct (mediawiki_tokens (get_user r)) as [e|[tok sec]]; [done|].
    simpl. eexists. split; reflexivity.
  - intros ops. induction ops as [|op ops IH]; intros σ; simpl; [done|].
    destruct (IH (perform wiki struct_to_datetime isoparse fromisoformat
                          templates name_matches Template_get Param_str
                          SpiCase_new find_all_ips op σ)) as [-> ->].
    apply perform_keeps.
  - intros request σ Hout. unfold Wiki_init, bind.
    rewrite get_mw_site_run. cbv zeta.
    destruct request as [r|]; simpl in Hout; [|done].
    by destruct (is_anonymous (get_user r)).
  - intros r tok sec σ Hanon Htok. unfold Wiki_init, bind.
    rewrite get_mw_site_run. cbv zeta. by rewrite Hanon, Htok.
  - intros r e σ Hanon Htok. unfold Wiki_init, bind.
    rewrite get_mw_site_run. cbv zeta. by rewrite Hanon, Htok.
Qed.

(** ** Credentials *)

(** C5, as the code has it: for a missing request or an anonymous user
    [get_mw_site] constructs the client with no credentials; for an
    authenticated user whose mediawiki social-auth record holds the
    access token and secret it constructs the client with the OAuth
    credentials; a client that was constructed carries credentials if
    and only if the request is present and its user authenticated; and
    an authenticated user without such a record (no mediawiki record,
    more than one, or one that lacks a token) gets the exception of the
    lookup and no client is constructed, which is the only way
    [get_mw_site] raises. *)
Theorem get_mw_site_credentials (request : option HttpRequest) (σ : state) :
  (signed_in request = false →
   ∃ site, get_mw_site settings request σ = (inr site, with_handle σ site)
           ∧ auth_info site = ∅)
  ∧ (∀ r tok sec,
       request = Some r → is_anonymous (get_user r) = false →
       mediawiki_tokens (get_user r) = inr (tok, sec) →
       ∃ site, get_mw_site settings request σ = (inr site, with_handle σ site)
               ∧ auth_info site = oauth_credentials settings tok sec)
  ∧ (∀ site σ',
       get_mw_site settings request σ = (inr site, σ') →
       σ' = with_handle σ site
       ∧ (auth_info site ≠ ∅ ↔ signed_in request = true))
  ∧ (∀ e σ',
       get_mw_site settings request σ = (inl e, σ') →
       σ' = σ ∧ ∃ r, request = Some r ∧ is_anonymous (get_user r) = false
                     ∧ mediawiki_tokens (get_user r) = inl e)
  ∧ (∀ r e,
       request = Some r → is_anonymous (get_user r) = false →
       mediawiki_tokens (get_user r) = inl e →
       get_mw_site settings request σ = (inl e, σ))
  ∧ (∀ r name rows,
       request = Some r → get_user r = StoredUser name rows →
       filter (fun row => provider row = "mediawiki") rows = [] →
       get_mw_site settings request σ = (inl DoesNotExist, σ)).
Proof.
  rewrite get_mw_site_run. cbv zeta.
  split; [|split; [|split; [|split; [|split]]]].
  - intros Hout. destruct request as [r|]; simpl in Hout.
    + destruct (is_anonymous (get_user r)); [|done]. by eexists.
    + by eexists.
  - intros r tok sec -> Hanon Htok. rewrite Hanon, Htok. by eexists.
  - intros site σ' Heq.
    destruct request as [r|]; simpl in *;
      [destruct (is_anonymous (get_user r));
       [| destruct (mediawiki_tokens (get_user r)) as [e|[tok sec]] ] |];
      simplify_eq; simpl; (split; [done|]); split; try done.
  - intros e σ' Heq.
    destruct request as [r|]; [destruct (is_anonymous (get_user r)) eqn:Ha|];
      [| destruct (mediawiki_tokens (get_user r)) as [e'|[tok sec]] eqn:Ht |];
      simplify_eq. eauto.
  - intros r e -> Hanon Htok. by rewrite Hanon, Htok.
  - intros r name rows -> Huser Hrows.
    unfold mediawiki_tokens, social_auth_get. rewrite Huser. simpl.
    by rewrite Hrows.
Qed.

(** ** Registration times *)

(** C9, as the code has it: [get_registration_time] returns the
    ['registration'] field of the first record of the user query, and
    [None] when that record has no such key; so it returns [None] exactly
    when the key is missing or the field itself holds [None]. *)
Theorem get_registration_time_field (user : string) (s : Site) (σ : state)
    (r : gmap string value) (rest : list (gmap string value)) :
  self_site σ = Some s →
  users wiki [user] ["registration"] = r :: rest →
  (get_registration_time wiki user σ).1 =
    inr (default VNone (r !! "registration"))
  ∧ ((get_registration_time wiki user σ).1 = inr VNone
     ↔ r !! "registration" = None ∨ r !! "registration" = Some VNone).
Proof.
  intros Hs Hr.
  assert ((get_registration_time wiki user σ).1 =
            inr (default VNone (r !! "registration"))) as Hrun.
  { destruct σ as [site cs tr lg]. simpl in Hs. subst site.
    unfold get_registration_time, bind, get_site, call. simpl.
    rewrite Hr. unfold ret, getitem. simpl.
    by destruct (r !! "registration"). }
  split; [done|]. rewrite Hrun.
  destruct (r !! "registration") as [v|]; simpl.
  - split; [intros [= ->]; by right | intros [[=]|[= ->]]; done].
  - split; [by left | done].
Qed.

(** ** The overview of open cases *)

Lemma map_result_inr {A B} (f : A → result B) (l : list A) (bs : list B) :
  map_result f l = inr bs ↔ Forall2 (fun a b => f a = inr b) l bs.
Proof.
  revert bs. induction l as [|a l IH]; intros bs; simpl.
  - split; [intros [= <-]; constructor | by inversion 1].
  - destruct (f a) as [e|b] eqn:Hfa.
    + split; [done | inversion 1; congruence].
    + destruct (map_result f l) as [e|bs'] eqn:Hl.
      * split; [done|]. inversion 1 as [|? b' ? bs'' Hb Hbs]; subst.
        apply IH in Hbs. done.
      * split.
        -- intros [= <-]. constructor; [done | by apply IH].
        -- inversion 1 as [|? b' ? bs'' Hb Hbs]; subst.
           apply IH in Hbs. congruence.
Qed.

Lemma map_result_total {A B} (f : A → result B) (l : list A) :
  Forall (fun a => ∃ b, f a = inr b) l → ∃ bs, map_result f l = inr bs.
Proof.
  induction 1 as [|a l [b Hb] _ [bs Hbs]]; simpl; [by eexists|].
  rewrite Hb, Hbs. by eexists.
Qed.

Lemma map_result_raises {A B} (f : A → result B) (l : list A) (e : exn) :
  Forall (fun a => (∃ b, f a = inr b) ∨ f a = inl e) l →
  Exists (fun a => f a = inl e) l →
  map_result f l = inl e.
Proof.
  induction 1 as [|a l Ha Hl IH]; intros Hex; [by inversion Hex|]. simpl.
  destruct Ha as [[b Hb]| ->]; [|done]. rewrite Hb.
  inversion Hex as [? ? Hbad|? ? Hbad]; subst; [congruence|].
  by rewrite IH.
Qed.

(** C6, as the code has it: [get_current_case_names] reads the overview
    page and looks at the templates whose name matches
    [SPIstatusentry], in document order.  When each of them has a
    parameter 1 it returns the strings of these parameters, one per
    template, in that order and nothing else; when one of them has none
    it raises [ValueError]. *)
Theorem get_current_case_names_list (s : Site) (σ : state) :
  self_site σ = Some s →
  let found :=
    filter (fun t => name_matches t "SPIstatusentry" = true)
           (templates (page_text wiki overview_page)) in
  let run :=
    (get_current_case_names wiki templates name_matches Template_get
                            Param_str σ).1 in
  (Forall (fun t => is_Some (Template_get t 1)) found →
   ∃ names,
     run = inr names
     ∧ Forall2 (fun t n => ∃ p, Template_get t 1 = Some p ∧ n = Param_str p)
               found names)
  ∧ (Exists (fun t => Template_get t 1 = None) found →
     run = inl (ValueError "1")).
Proof.
  intros Hs found run.
  assert (run = map_result
                  (fun t => match Template_get t 1 with
                            | Some p => inr (Param_str p)
                            | None => inl (ValueError "1")
                            end) found) as ->.
  { unfold run, get_current_case_names, bind.
    by rewrite (pages_text_run _ _ s). }
  split.
  - intros Hall.
    destruct (map_result_total
                (fun t => match Template_get t 1 with
                          | Some p => inr (Param_str p)
                          | None => inl (ValueError "1")
                          end) found) as [names Hnames].
    { eapply Forall_impl; [exact Hall|]. intros t [p ->]. by eexists. }
    exists names. split; [done|].
    apply map_result_inr in Hnames.
    eapply Forall2_impl; [exact Hnames|]. simpl. intros t n Ht.
    destruct (Template_get t 1) as [p|]; [|done].
    exists p. split; congruence.
  - intros Hex. apply map_result_raises.
    + apply Forall_forall. intros t _.
      destruct (Template_get t 1); [left; by eexists | by right].
    + eapply Exists_impl; [exact Hex|]. simpl. by intros t ->.
Qed.

(** ** Loops *)






Lemma returns_ret {A} (P : A → Prop) (a : A) : P a → returns_only P (ret a).
Proof. intros Ha σ a' σ' [= <- _]. done. Qed.


Lemma returns_bind {A B} (P : B → Prop) (m : M A) (k : A → M B) :
  (∀ a, returns_only P (k a)) → returns_only P (bind m k).
Proof.
  intros Hk σ b σ'. unfold bind.
  destruct (m σ) as [[e|a] σ'']; [done|]. apply Hk.
Qed.

Lemma yields_done {A} (P : A → Prop) : yields_only P gen_done.
Proof. intros σ. constructor. Qed.

Lemma yields_seq {A} (P : A → Prop) (g1 g2 : G A) :
  yields_only P g1 → yields_only P g2 → yields_only P (gen_seq g1 g2).
Proof.
  intros H1 H2 σ. unfold gen_seq. specialize (H1 σ).
  destruct (g1 σ) as [[ys [e|]] σ']; simpl in *; [done|].
  specialize (H2 σ'). destruct (g2 σ') as [[zs e] σ'']; simpl in *.
  by apply Forall_app.
Qed.

Lemma yields_for {A B} (P : B → Prop) (l : list A) (body : A → G B) :
  (∀ x, yields_only P (body x)) → yields_only P (gen_for l body).
Proof.
  intros Hbody. induction l as [|x l IH]; simpl.
  - apply yields_done.
  - apply yields_seq; [apply Hbody | apply IH].
Qed.

Lemma yields_bind {A B} (P : B → Prop) (m : M A) (k : A → G B) :
  (∀ a, yields_only P (k a)) → yields_only P (gen_bind m k).
Proof.
  intros Hk σ. unfold gen_bind.
  destruct (m σ) as [[e|a] σ']; [constructor | apply Hk].
Qed.

Lemma yields_bind_yield {A} (P : A → Prop) (m : M A) :
  returns_only P m → yields_only P (gen* c := m in yield c).
Proof.
  intros Hm σ. unfold gen_bind, yield.
  destruct (m σ) as [[e|a] σ'] eqn:Hrun; simpl; [constructor|].
  constructor; [by eapply Hm | constructor].
Qed.

(** ** Live contributions *)




(** ** Live and deleted *)

Lemma user_contributions_live (user_name : string) :
  yields_only (fun c => is_live c = true)
              (user_contributions wiki struct_to_datetime user_name).
Proof.
  unfold user_contributions.
  apply yields_bind; intros s. apply yields_bind; intros _.
  apply yields_for; intros contrib. apply yields_bind_yield.
  repeat (apply returns_bind; intros ?). by apply returns_ret.
Qed.

Lemma deleted_user_contributions_not_live (user_name : string) :
  yields_only (fun c => is_live c = false)
              (deleted_user_contributions wiki fromisoformat user_name).
Proof.
  unfold deleted_user_contributions.
  apply yields_bind; intros s. apply yields_bind; intros _.
  apply yields_for; intros page. apply yields_bind; intros _.
  apply yields_bind; intros revisions. apply yields_for; intros revision.
  apply yields_bind_yield. unfold deleted_revision.
  repeat (apply returns_bind; intros ?). by apply returns_ret.
Qed.

Lemma filter_all {A} (P : A → Prop) `{∀ x, Decision (P x)} (l : list A) :
  Forall P l → filter P l = l.
Proof.
  induction 1 as [|x l Hx _ IH]; [done|].
  rewrite filter_cons_True by done. by rewrite IH.
Qed.

Lemma filter_none {A} (P : A → Prop) `{∀ x, Decision (P x)} (l : list A) :
  Forall (fun x => ¬ P x) l → filter P l = [].
Proof.
  induction 1 as [|x l Hx _ IH]; [done|].
  by rewrite filter_cons_False.
Qed.

(** C10: every [WikiContrib] that [user_contributions] yields has
    [is_live] true and every one that [deleted_user_contributions]
    yields has it false; so in any merge of the two streams the live
    edits are exactly the items with [is_live] true and the deleted
    edits exactly those with [is_live] false. *)
Theorem is_live_distinguishes (live_user deleted_user : string)
    (σ1 σ2 : state) (live deleted merged : list WikiContrib) :
  live = (user_contributions wiki struct_to_datetime live_user σ1).1.1 →
  deleted =
    (deleted_user_contributions wiki fromisoformat deleted_user σ2).1.1 →
  merged ≡ₚ live ++ deleted →
  Forall (fun c => is_live c = true) live
  ∧ Forall (fun c => is_live c = false) deleted
  ∧ filter (fun c => is_live c = true) merged ≡ₚ live
  ∧ filter (fun c => is_live c = false) merged ≡ₚ deleted.
Proof.
  intros -> -> Hmerged.
  set (live := (user_contributions _ _ _ _).1.1) in *.
  set (deleted := (deleted_user_contributions _ _ _ _).1.1) in *.
  assert (Forall (fun c => is_live c = true) live) as Hlive
    by apply user_contributions_live.
  assert (Forall (fun c => is_live c = false) deleted) as Hdeleted
    by apply deleted_user_contributions_not_live.
  split; [done|]. split; [done|]. split.
  - rewrite Hmerged, filter_app, (filter_all _ live) by done.
    rewrite (filter_none _ deleted); [by rewrite app_nil_r|].
    eapply Forall_impl; [exact Hdeleted|]. simpl. by intros c ->.
  - rewrite Hmerged, filter_app, (filter_all _ deleted) by done.
    rewrite (filter_none _ live); [done|].
    eapply Forall_impl; [exact Hlive|]. simpl. by intros c ->.
Qed.

(** ** Block histories *)

(** The three tests of the loop body exclude one another, so the body
    appends what [event_for] gives. *)
Lemma block_entry_run (user_name : string) (b : gmap string value)
    (events : list event) (σ : state) (action : value) (time : datetime)
    (expiry : value) :
  entry_fields struct_to_datetime isoparse b = Some (action, time, expiry) →
  ∃ σ',
    block_entry struct_to_datetime isoparse user_name b events σ =
      (inr (events ++ event_for user_name action time expiry), σ').
Proof.
  unfold entry_fields.
  destruct (b !! "action") as [a|] eqn:Ha; [|done].
  destruct (b !! "timestamp") as [[| | | |t| | |]|] eqn:Ht; try done.
  destruct (b !! "params") as [[| | | | | | |p]|] eqn:Hp; try done.
  destruct (and_isoparse isoparse (default VNone (p !! "expiry")))
    as [ex|e] eqn:He; [done|].
  intros [= <- <- <-].
  unfold block_entry, bind, lift, getitem. rewrite Ha, Ht, Hp. simpl.
  rewrite He. unfold event_for.
  destruct a as [| | |act| | | |]; simpl;
    try (eexists; by rewrite app_nil_r).
  destruct (String.eqb_spec act "block") as [->|_]; simpl; [by eexists|].
  destruct (String.eqb_spec act "reblock") as [->|_]; simpl; [by eexists|].
  destruct (String.eqb_spec act "unblock") as [->|_]; simpl; [by eexists|].
  eexists. by rewrite app_nil_r.
Qed.

Lemma block_entries_run (user_name : string) (l : list (gmap string value))
    (events : list event) (σ : state) :
  Forall (fun b => is_Some (entry_fields struct_to_datetime isoparse b)) l →
  ∃ σ',
    for_acc l events (block_entry struct_to_datetime isoparse user_name) σ =
      (inr (events ++ (l ≫= events_of struct_to_datetime isoparse user_name)),
       σ').
Proof.
  intros Hl. revert events σ.
  induction Hl as [|b l [[[a t] e] Hb] _ IH]; intros events σ.
  - exists σ. simpl. by rewrite app_nil_r.
  - destruct (block_entry_run user_name b events σ a t e Hb) as [σ1 Hrun].
    destruct (IH (events ++ event_for user_name a t e) σ1) as [σ2 Hrest].
    exists σ2. simpl. unfold bind. rewrite Hrun, Hrest.
    change (list_bind _ _ ?f l) with (l ≫= f).
    unfold events_of at 2. rewrite Hb. by rewrite <- app_assoc.
Qed.

(** C1: for the block-log entries the client returns for a user,
    [get_user_blocks] returns the list that holds, in the order of the
    entries, a [BlockEvent(user_name, timestamp, expiry)] for an entry
    whose action is ['block'], a [BlockEvent(user_name, timestamp,
    expiry, reblock=True)] for ['reblock'], an
    [UnblockEvent(user_name, timestamp)] for ['unblock'], and nothing
    for an entry with another action. *)
Theorem get_user_blocks_events (user_name : string) (s : Site) (σ : state) :
  self_site σ = Some s →
  Forall (fun b => is_Some (entry_fields struct_to_datetime isoparse b))
         (logevents wiki ("User:" +:+ user_name) "block" "newer") →
  (get_user_blocks wiki struct_to_datetime isoparse user_name σ).1 =
    inr (logevents wiki ("User:" +:+ user_name) "block" "newer"
         ≫= events_of struct_to_datetime isoparse user_name).
Proof.
  intros Hs Hentries.
  destruct σ as [site cs tr lg]. simpl in Hs. subst site.
  unfold get_user_blocks, bind, get_site, call. simpl.
  edestruct (block_entries_run user_name
               (logevents wiki ("User:" +:+ user_name) "block" "newer") [])
    as [σ' Hrun]; [exact Hentries|].
  by rewrite Hrun.
Qed.

(** ** Deleted contributions *)

Lemma deleted_revision_run (page : gmap string value) (v t c : value)
    (ts : string) (σ : state) :
  page !! "title" = Some t →
  revision_fields v = Some (ts, c) →
  (deleted_revision fromisoformat page v σ).1 =
    revision_outcome fromisoformat (t, ts, c).
Proof.
  intros Ht Hv. destruct v as [| | | | | | |r]; try done. simpl in Hv.
  destruct (r !! "timestamp") as [[| | |ts'| | | |]|] eqn:Hts; try done.
  destruct (r !! "comment") as [c'|] eqn:Hc; [|done].
  injection Hv as -> ->.
  unfold deleted_revision, bind, log, lift, raise, subscript, getitem. simpl.
  rewrite Hts. simpl. unfold percent_s. rewrite append_empty_r.
  destruct (endswith ts "Z"); [|done].
  destruct (fromisoformat _) as [e|d]; [done|].
  by rewrite Ht, Hc.
Qed.




End Properties.

(** ** The methods on the example wiki *)

(** Alice's block log: a block with an expiry, an unblock, a reblock
    without one, and an entry of another kind, which leaves no event. *)
Lemma get_user_blocks_events_Alice :
  self_site Example.ready = Some Example.anonymous_site
  ∧ Forall (fun b => is_Some (entry_fields Example.struct_to_datetime
                                           Example.isoparse b))
           (logevents Example.wiki ("User:" +:+ "Alice") "block" "newer")
  ∧ (get_user_blocks Example.wiki Example.struct_to_datetime Example.isoparse
                     "Alice" Example.ready).1 =
      inr (logevents Example.wiki ("User:" +:+ "Alice") "block" "newer"
           ≫= events_of Example.struct_to_datetime Example.isoparse "Alice").
Proof.
  assert (Forall (fun b => is_Some (entry_fields Example.struct_to_datetime
                                                 Example.isoparse b))
                 (logevents Example.wiki ("User:" +:+ "Alice") "block" "newer"))
    as Hentries.
  { vm_compute. repeat (constructor; [eexists; reflexivity|]). constructor. }
  split; [reflexivity|]. split; [exact Hentries|].
  apply (get_user_blocks_events Example.wiki Example.struct_to_datetime
           Example.isoparse "Alice" Example.anonymous_site Example.ready);
    [reflexivity | exact Hentries].
Defined.

Example get_user_blocks_Alice :
  (get_user_blocks Example.wiki Example.struct_to_datetime Example.isoparse
                   "Alice" Example.ready).1 =
    let time := Example.struct_to_datetime Example.stamp in
    inr [BlockEvent "Alice" time
           (VDatetime {| year := 2020; month := 6; day := 8; hour := 12;
                         minute := 30; second := 0; microsecond := 0;
                         tzoffset := Some 0%Z |}) None;
         UnblockEvent "Alice" time;
         BlockEvent "Alice" time VNone (Some true)].
Proof. vm_compute. reflexivity. Qed.

(** The loop also hands every entry that is not an unblock to the
    logger, the blocks and reblocks it has just recorded among them. *)
Example get_user_blocks_Alice_logged :
  length (logged (get_user_blocks Example.wiki Example.struct_to_datetime
                                  Example.isoparse "Alice" Example.ready).2)
  = 3%nat.
Proof. vm_compute. reflexivity. Qed.



Lemma get_case_ips_documents_Alice :
  self_site Example.ready = Some Example.anonymous_site
  ∧ ∃ docs,
      (get_case_ips Example.wiki Example.SpiCase_new Example.find_all_ips
                    "Alice" Example.ready).1 =
        match Example.SpiCase_new docs with
        | inr case => Example.find_all_ips case
        | inl e => inl e
        end
      ∧ (page_text Example.wiki (archive_page "Alice") ≠ "" →
         docs = [document Example.wiki (case_page "Alice");
                 document Example.wiki (archive_page "Alice")])
      ∧ (page_text Example.wiki (archive_page "Alice") = "" →
         docs = [document Example.wiki (case_page "Alice")]).
Proof.
  split; [reflexivity|].
  apply (get_case_ips_documents Example.wiki Example.SpiCase_new
           Example.find_all_ips "Alice" Example.anonymous_site Example.ready).
  reflexivity.
Defined.

Example get_case_ips_Alice_and_Bob :
  (get_case_ips Example.wiki Example.SpiCase_new Example.find_all_ips
                "Alice" Example.ready).1 = inr ["10.0.0.1"; "10.0.0.2"]
  ∧ (get_case_ips Example.wiki Example.SpiCase_new Example.find_all_ips
                  "Bob" Example.ready).1 = inr ["10.0.0.3"].
Proof. split; vm_compute; reflexivity. Qed.

Lemma get_case_archive_Alice :
  self_site Example.ready = Some Example.anonymous_site
  ∧ ((get_case Example.wiki Example.SpiCase_new "Alice" false
               Example.ready).1 =
       Example.SpiCase_new [document Example.wiki (case_page "Alice")]
     ∧ traffic (get_case Example.wiki Example.SpiCase_new "Alice" false
                         Example.ready).2 =
         traffic Example.ready
         ++ [(Example.anonymous_site, PageText (case_page "Alice"))])
  ∧ ∃ docs,
      (get_case Example.wiki Example.SpiCase_new "Alice" true
                Example.ready).1 = Example.SpiCase_new docs
      ∧ (page_text Example.wiki (archive_page "Alice") ≠ "" →
         docs = [document Example.wiki (case_page "Alice");
                 document Example.wiki (archive_page "Alice")])
      ∧ (page_text Example.wiki (archive_page "Alice") = "" →
         docs = [document Example.wiki (case_page "Alice")]).
Proof.
  split; [reflexivity|].
  apply (get_case_archive Example.wiki Example.SpiCase_new "Alice"
           Example.anonymous_site Example.ready).
  reflexivity.
Defined.


Example deleted_user_contributions_Bob :
  (deleted_user_contributions Example.wiki Example.fromisoformat "Bob"
                              Example.ready).1 =
    ([{| timestamp := {| year := 2020; month := 6; day := 1; hour := 12;
                         minute := 30; second := 0; microsecond := 0;
                         tzoffset := Some 0%Z |};
         title := VStr "Spam"; comment := VStr "new"; is_live := false |}],
     Some (ValueError "Unparsable timestamp: 2020-06-02T08:00:00")).
Proof. vm_compute. reflexivity. Qed.


(** A signed-in editor gets a handle with the four OAuth credentials. *)
Lemma get_mw_site_credentials_editor :
  Some Example.editor = Some Example.editor
  ∧ is_anonymous (get_user Example.editor) = false
  ∧ mediawiki_tokens (get_user Example.editor) = inr (VStr "tok", VStr "sec")
  ∧ ∃ site,
      get_mw_site Example.settings (Some Example.editor) Example.fresh =
        (inr site, with_handle Example.fresh site)
      ∧ auth_info site =
          oauth_credentials Example.settings (VStr "tok") (VStr "sec").
Proof.
  split; [reflexivity|]. split; [reflexivity|].
  split; [vm_compute; reflexivity|].
  apply (proj1 (proj2 (get_mw_site_credentials Example.settings
                         (Some Example.editor) Example.fresh))
           Example.editor (VStr "tok") (VStr "sec"));
    [reflexivity | reflexivity | vm_compute; reflexivity].
Defined.

(** A user who signed in with a password of the site has no mediawiki
    record: the request carries an authenticated user, and no client is
    constructed at all. *)
Lemma get_mw_site_staff :
  signed_in (Some Example.staff) = true
  ∧ get_mw_site Example.settings (Some Example.staff) Example.fresh =
      (inl DoesNotExist, Example.fresh)
  ∧ ¬ ∃ site σ',
        get_mw_site Example.settings (Some Example.staff) Example.fresh =
          (inr site, σ').
Proof.
  assert (get_mw_site Example.settings (Some Example.staff) Example.fresh =
            (inl DoesNotExist, Example.fresh)) as Hrun
    by (vm_compute; reflexivity).
  split; [reflexivity|]. split; [exact Hrun|].
  intros (site & σ' & Hsite). rewrite Hrun in Hsite. discriminate.
Qed.

(** [Wiki(request)] for a signed-in editor on a fresh state: the one
    handle built carries the editor's credentials and is the [site]
    field, and a session of operations leaves it there. *)
Lemma single_handle_editor :
  is_anonymous (get_user Example.editor) = false
  ∧ mediawiki_tokens (get_user Example.editor) = inr (VStr "tok", VStr "sec")
  ∧ Wiki_init Example.settings (Some Example.editor) Example.fresh =
      (let site :=
         {| host := MEDIAWIKI_SITE_NAME Example.settings;
            clients_useragent := MEDIAWIKI_USER_AGENT Example.settings;
            auth_info :=
              oauth_credentials Example.settings (VStr "tok") (VStr "sec") |} in
       (inr tt, {| self_site := Some site;
                   constructed := constructed Example.fresh ++ [site];
                   traffic := traffic Example.fresh;
                   logged := logged Example.fresh |})).
Proof.
  split; [reflexivity|]. split; [vm_compute; reflexivity|].
  apply (proj1 (proj2 (proj2 (proj2
           (single_handle Example.settings Example.wiki
              Example.struct_to_datetime Example.isoparse
              Example.fromisoformat Example.templates Example.name_matches
              Example.Template_get Example.Param_str Example.SpiCase_new
              Example.find_all_ips))))
           Example.editor (VStr "tok") (VStr "sec") Example.fresh);
    [reflexivity | vm_compute; reflexivity].
Defined.

(** The overview with its two entries. *)
Lemma get_current_case_names_list_overview :
  self_site Example.ready = Some Example.anonymous_site
  ∧ Forall (fun t => is_Some (Example.Template_get t 1))
           (filter (fun t => Example.name_matches t "SPIstatusentry" = true)
                   (Example.templates
                      (page_text Example.wiki overview_page)))
  ∧ ∃ names,
      (get_current_case_names Example.wiki Example.templates
         Example.name_matches Example.Template_get Example.Param_str
         Example.ready).1 = inr names
      ∧ Forall2
          (fun t n => ∃ p, Example.Template_get t 1 = Some p
                           ∧ n = Example.Param_str p)
          (filter (fun t => Example.name_matches t "SPIstatusentry" = true)
                  (Example.templates
                     (page_text Example.wiki overview_page)))
          names.
Proof.
  assert (Forall (fun t => is_Some (Example.Template_get t 1))
            (filter (fun t => Example.name_matches t "SPIstatusentry" = true)
                    (Example.templates
                       (page_text Example.wiki overview_page))))
    as Hall.
  { vm_compute. repeat (constructor; [eexists; reflexivity|]). constructor. }
  split; [reflexivity|]. split; [exact Hall|].
  apply (proj1 (get_current_case_names_list Example.wiki Example.templates
                  Example.name_matches Example.Template_get Example.Param_str
                  Example.anonymous_site Example.ready eq_refl)).
  exact Hall.
Defined.

Example get_current_case_names_overview :
  (get_current_case_names Example.wiki Example.templates
     Example.name_matches Example.Template_get Example.Param_str
     Example.ready).1 = inr ["Alice"; "Bob"].
Proof. vm_compute. reflexivity. Qed.

(** With a bare [{{SPIstatusentry}}] on the overview no list is
    returned. *)
Lemma get_current_case_names_bare_entry :
  page_text Example.wiki_bare overview_page =
    "{{SPIstatusentry|Alice|open}}{{SPIstatusentry}}"
  ∧ (get_current_case_names Example.wiki_bare Example.templates
       Example.name_matches Example.Template_get Example.Param_str
       Example.ready).1 = inl (ValueError "1")
  ∧ ¬ ∃ names,
        (get_current_case_names Example.wiki_bare Example.templates
           Example.name_matches Example.Template_get Example.Param_str
           Example.ready).1 = inr names.
Proof.
  assert ((get_current_case_names Example.wiki_bare Example.templates
             Example.name_matches Example.Template_get Example.Param_str
             Example.ready).1 = inl (ValueError "1")) as Hrun
    by (vm_compute; reflexivity).
  split; [reflexivity|]. split; [exact Hrun|].
  intros [names Hnames]. rewrite Hrun in Hnames. discriminate.
Qed.

(** A user with a registration time, and one whose record has none. *)
Lemma get_registration_time_field_Ghost :
  self_site Example.ready = Some Example.anonymous_site
  ∧ users Example.wiki ["Ghost"] ["registration"] =
      [{[ "name" := VStr "Ghost"; "missing" := VStr "" ]}]
  ∧ (get_registration_time Example.wiki "Ghost" Example.ready).1 =
      inr (default VNone
             (({[ "name" := VStr "Ghost"; "missing" := VStr "" ]}
               : gmap string value) !! "registration"))
  ∧ ((get_registration_time Example.wiki "Ghost" Example.ready).1 = inr VNone
     ↔ ({[ "name" := VStr "Ghost"; "missing" := VStr "" ]}
        : gmap string value) !! "registration" = None
       ∨ ({[ "name" := VStr "Ghost"; "missing" := VStr "" ]}
          : gmap string value) !! "registration" = Some VNone).
Proof.
  split; [reflexivity|]. split; [vm_compute; reflexivity|].
  apply (get_registration_time_field Example.wiki "Ghost"
           Example.anonymous_site Example.ready
           {[ "name" := VStr "Ghost"; "missing" := VStr "" ]} []);
    [reflexivity | vm_compute; reflexivity].
Defined.

Example get_registration_time_Carol :
  (get_registration_time Example.wiki "Carol" Example.ready).1 =
    inr (VStr "2020-06-01T12:30:00Z").
Proof. vm_compute. reflexivity. Qed.

(** The record of user [Old] has the key, holding [None]: the method
    returns [None] although the key is there. *)
Lemma get_registration_time_null :
  users Example.wiki ["Old"] ["registration"] =
    [{[ "name" := VStr "Old"; "registration" := VNone ]}]
  ∧ ¬ ((get_registration_time Example.wiki "Old" Example.ready).1 = inr VNone
       ↔ ({[ "name" := VStr "Old"; "registration" := VNone ]}
          : gmap string value) !! "registration" = None).
Proof.
  split; [vm_compute; reflexivity|].
  intros [Hnone _].
  assert (({[ "name" := VStr "Old"; "registration" := VNone ]}
           : gmap string value) !! "registration" = None) as Hkey;
    [|by vm_compute in Hkey].
  apply Hnone. vm_compute. reflexivity.
Qed.

(** Alice's live and deleted edits, merged with the deleted ones
    first. *)
Lemma is_live_distinguishes_Alice :
  (user_contributions Example.wiki Example.struct_to_datetime "Alice"
                      Example.ready).1.1 =
    (user_contributions Example.wiki Example.struct_to_datetime "Alice"
                        Example.ready).1.1
  ∧ (deleted_user_contributions Example.wiki Example.fromisoformat "Alice"
                                Example.ready).1.1 =
      (deleted_user_contributions Example.wiki Example.fromisoformat "Alice"
                                  Example.ready).1.1
  ∧ (deleted_user_contributions Example.wiki Example.fromisoformat "Alice"
                                Example.ready).1.1
    ++ (user_contributions Example.wiki Example.struct_to_datetime "Alice"
                           Example.ready).1.1
    ≡ₚ (user_contributions Example.wiki Example.struct_to_datetime "Alice"
                           Example.ready).1.1
       ++ (deleted_user_contributions Example.wiki Example.fromisoformat
                                      "Alice" Example.ready).1.1
  ∧ (Forall (fun c => is_live c = true)
            (user_contributions Example.wiki Example.struct_to_datetime
                                "Alice" Example.ready).1.1
     ∧ Forall (fun c => is_live c = false)
              (deleted_user_contributions Example.wiki Example.fromisoformat
                                          "Alice" Example.ready).1.1
     ∧ filter (fun c => is_live c = true)
              ((deleted_user_contributions Example.wiki Example.fromisoformat
                                           "Alice" Example.ready).1.1
               ++ (user_contributions Example.wiki Example.struct_to_datetime
                                      "Alice" Example.ready).1.1)
       ≡ₚ (user_contributions Example.wiki Example.struct_to_datetime "Alice"
                              Example.ready).1.1
     ∧ filter (fun c => is_live c = false)
              ((deleted_user_contributions Example.wiki Example.fromisoformat
                                           "Alice" Example.ready).1.1
               ++ (user_contributions Example.wiki Example.struct_to_datetime
                                      "Alice" Example.ready).1.1)
       ≡ₚ (deleted_user_contributions Example.wiki Example.fromisoformat
                                      "Alice" Example.ready).1.1).
Proof.
  split; [reflexivity|]. split; [reflexivity|].
  split; [apply Permutation_app_comm|].
  apply (is_live_distinguishes Example.wiki Example.struct_to_datetime
           Example.fromisoformat "Alice" "Alice" Example.ready Example.ready);
    [reflexivity | reflexivity | apply Permutation_app_comm].
Defined.

(** ** The project settings *)

Section Strings.

Import Stdlib.Strings.Ascii.
Import Project.

Lemma append_assoc (a b c : string) : (a +:+ b) +:+ c = a +:+ (b +:+ c).
Proof.
  induction a as [|x a IH]; [done|].
  change (String x ((a +:+ b) +:+ c) = String x (a +:+ (b +:+ c))).
  by rewrite IH.
Qed.

Lemma prefix_append (p rest : string) : String.prefix p (p +:+ rest) = true.
Proof.
  induction p as [|x p IH]; [by destruct rest|].
  change (String.prefix (String x p) (String x (p +:+ rest)) = true).
  simpl. by destruct (Ascii.ascii_dec x x).
Qed.

Lemma prefix_decompose (p s : string) :
  String.prefix p s = true → ∃ rest, s = p +:+ rest.
Proof.
  revert s. induction p as [|x p IH]; intros s Hp; [by exists s|].
  destruct s as [|y s]; [done|]. simpl in Hp.
  destruct (Ascii.ascii_dec x y) as [->|]; [|done].
  destruct (IH s Hp) as [rest ->]. by exists rest.
Qed.

Lemma has_char_append (c : ascii) (a b : string) :
  has_char c (a +:+ b) = has_char c a || has_char c b.
Proof.
  induction a as [|x a IH]; [done|].
  change (has_char c (String x (a +:+ b))
          = has_char c (String x a) || has_char c b).
  simpl. rewrite IH. by rewrite orb_assoc.
Qed.

(** A name without a slash is the segment in front of the next slash. *)
Lemma segment_name (name rest : string) :
  has_char "/" name = false →
  segment (name +:+ String "/" rest) = (name, String "/" rest).
Proof.
  induction name as [|x name IH]; intros Hname; [done|].
  simpl in Hname. apply orb_false_iff in Hname as [Hx Hname].
  change (segment (String x (name +:+ String "/" rest))
          = (String x name, String "/" rest)).
  simpl. rewrite Hx, IH by done. done.
Qed.

Lemma segment_split (s seg rest : string) :
  segment s = (seg, rest) →
  s = seg +:+ rest ∧ has_char "/" seg = false.
Proof.
  revert seg rest. induction s as [|x s IH]; intros seg rest; simpl.
  - by intros [= <- <-].
  - destruct (Ascii.eqb x "/") eqn:Hx; [by intros [= <- <-]|].
    destruct (segment s) as [seg' rest'] eqn:Hs. intros [= <- <-].
    destruct (IH seg' rest' eq_refl) as [-> Hseg]. split; [done|].
    simpl. by rewrite Hx.
Qed.

Lemma tool_name_here_found (name rest : string) :
  has_char "/" name = false →
  tool_name_here (String "/" (name +:+ "/www/python/src" +:+ rest))
  = Some name.
Proof.
  intros Hname. simpl.
  change ("/www/python/src" +:+ rest)
    with (String "/" ("www/python/src" +:+ rest)).
  rewrite segment_name by done.
  change (String "/" ("www/python/src" +:+ rest))
    with ("/www/python/src" +:+ rest).
  by rewrite prefix_append.
Qed.

Lemma tool_name_here_split (s name : string) :
  tool_name_here s = Some name →
  has_char "/" name = false
  ∧ ∃ rest, s = String "/" (name +:+ "/www/python/src" +:+ rest).
Proof.
  destruct s as [|x s]; [done|]. simpl.
  destruct (Ascii.eqb_spec x "/") as [->|]; [|done].
  destruct (segment s) as [seg rest] eqn:Hs.
  destruct (String.prefix "/www/python/src" rest) eqn:Hp; [|done].
  intros [= <-]. apply segment_split in Hs as [-> Hseg].
  apply prefix_decompose in Hp as [rest' ->]. split; [done|].
  by exists rest'.
Qed.

(** Behind the last [/www/python/src] nothing matches any more. *)
Lemma tool_name_match_tail (name : string) :
  has_char "/" name = false →
  tool_name_match (name +:+ "/www/python/src") = None.
Proof.
  induction name as [|x name IH]; intros Hname; [by vm_compute|].
  simpl in Hname. apply orb_false_iff in Hname as [Hx Hname].
  change (tool_name_match (String x (name +:+ "/www/python/src")) = None).
  simpl. rewrite Hx, IH by done. by destruct (Ascii.eqb x "010").
Qed.

Lemma tool_name_match_cons (x : ascii) (s : string) :
  tool_name_match (String x s) =
    if Ascii.eqb x "010" then tool_name_here (String x s)
    else match tool_name_match s with
         | Some name => Some name
         | None => tool_name_here (String x s)
         end.
Proof. reflexivity. Qed.

Lemma tool_name_match_found (a name rest : string) :
  has_char "010" a = false →
  has_char "/" name = false →
  is_Some (tool_name_match
             (a +:+ String "/" (name +:+ "/www/python/src" +:+ rest))).
Proof.
  intros Ha Hname. induction a as [|x a IH].
  - change (is_Some (tool_name_match
                       (String "/" (name +:+ "/www/python/src" +:+ rest)))).
    rewrite tool_name_match_cons.
    change (Ascii.eqb "/" "010") with false. cbv iota.
    destruct (tool_name_match _); [by eexists|].
    rewrite tool_name_here_found by done. by eexists.
  - simpl in Ha. apply orb_false_iff in Ha as [Hx Ha].
    change (is_Some
              (tool_name_match
                 (String x (a +:+ String "/"
                                  (name +:+ "/www/python/src" +:+ rest))))).
    rewrite tool_name_match_cons, Hx.
    destruct (IH Ha) as [n ->]. by eexists.
Qed.

Lemma tool_name_match_split (s name : string) :
  tool_name_match s = Some name →
  has_char "/" name = false
  ∧ ∃ a rest,
      s = a +:+ String "/" (name +:+ "/www/python/src" +:+ rest)
      ∧ has_char "010" a = false.
Proof.
  induction s as [|x s IH]; [done|]. simpl.
  assert (tool_name_here (String x s) = Some name →
          has_char "/" name = false
          ∧ ∃ a rest,
              String x s = a +:+ String "/" (name +:+ "/www/python/src" +:+ rest)
              ∧ has_char "010" a = false) as Hhere.
  { intros Hh. apply tool_name_here_split in Hh as [Hname [rest ->]].
    split; [done|]. by exists "", rest. }
  destruct (Ascii.eqb x "010") eqn:Hx; [exact Hhere|].
  destruct (tool_name_match s) as [n|]; [|exact Hhere].
  intros [= ->]. destruct (IH eq_refl) as [Hname (a & rest & -> & Ha)].
  split; [done|]. exists (String x a), rest. split; [done|].
  simpl. by rewrite Hx.
Qed.

Lemma contains_split (needle hay : string) :
  contains needle hay = true ↔ ∃ pre post, hay = pre +:+ needle +:+ post.
Proof.
  split.
  - induction hay as [|x hay IH].
    + change (contains needle "") with (String.prefix needle "" || false).
      rewrite orb_false_r. intros Hp.
      apply prefix_decompose in Hp as [post ->]. by exists "", post.
    + change (contains needle (String x hay))
        with (String.prefix needle (String x hay) || contains needle hay).
      intros [Hp|Hc]%orb_true_iff.
      * apply prefix_decompose in Hp as [post ->]. by exists "", post.
      * destruct (IH Hc) as (pre & post & ->). by exists (String x pre), post.
  - intros (pre & post & ->). induction pre as [|x pre IH].
    + change (contains needle (needle +:+ post) = true).
      assert (∀ h, String.prefix needle h = true → contains needle h = true)
        as Hhead.
      { intros [|y h] Hh.
        - change (String.prefix needle "" || false = true). by rewrite Hh.
        - change (String.prefix needle (String y h) || contains needle h
                  = true).
          by rewrite Hh. }
      apply Hhead, prefix_append.
    + change (contains needle (String x (pre +:+ needle +:+ post)) = true).
      change (contains needle (String x ?h))
        with (String.prefix needle (String x h) || contains needle h).
      by rewrite IH, orb_true_r.
Qed.

End Strings.

Section Settings_module.

Import Stdlib.Strings.Ascii.
Import Project.

(** A path that ends in [/name/www/python/src] gives that name. *)
Lemma tool_name_match_layout (root name : string) :
  has_char "010" root = false →
  has_char "/" name = false →
  tool_name_match (root +:+ "/" +:+ name +:+ "/www/python/src") = Some name.
Proof.
  intros Hroot Hname. induction root as [|x root IH].
  - change (tool_name_match (String "/" (name +:+ "/www/python/src"))
            = Some name).
    rewrite tool_name_match_cons.
    change (Ascii.eqb "/" "010") with false. cbv iota.
    rewrite tool_name_match_tail by done.
    rewrite <- (append_empty_r (name +:+ "/www/python/src")).
    rewrite append_assoc. by apply tool_name_here_found.
  - simpl in Hroot. apply orb_false_iff in Hroot as [Hx Hroot].
    change (tool_name_match
              (String x (root +:+ "/" +:+ name +:+ "/www/python/src"))
            = Some name).
    by rewrite tool_name_match_cons, Hx, IH.
Qed.

(** X11: when [HOME] is set, [get_info] returns and [BASE_DIR] is
    [<root>/<name>/www/python/src] with no slash in the name (and no
    newline in the root), the settings module loads with [TOOL_NAME] the
    name, [STATIC_URL] [/<name>/static/], the OAuth callback on
    [<name>.toolforge.org] and [DEBUG] on. *)
Theorem load_tool_name (o : Outside) (root name home : string) (v : value) :
  environ o !! "HOME" = Some home →
  version_info o = inr v →
  base_dir o = root +:+ "/" +:+ name +:+ "/www/python/src" →
  has_char "010" root = false →
  has_char "/" name = false →
  ∃ st,
    load o = inr st
    ∧ TOOL_NAME st = name
    ∧ STATIC_URL st = "/" +:+ name +:+ "/static/"
    ∧ MEDIAWIKI_CALLBACK st =
        "https://" +:+ name +:+ ".toolforge.org/oauth/complete/mediawiki/"
    ∧ DEBUG st = true
    ∧ BASE_DIR st = base_dir o.
Proof.
  intros Hhome Hv Hbase Hroot Hname. unfold load, join_logs.
  rewrite Hhome, Hv, Hbase, tool_name_match_layout by done.
  destruct (String.eqb home "" || endswith home "/"); by eexists.
Qed.

(** X12: the three ways the import of the settings module fails, in
    the order the module meets them: [HOME] is not set ([TypeError] from
    [os.path.join]); else [get_info] raises; else [BASE_DIR] has no
    part [/<name>/www/python/src] behind a newline-free prefix
    ([RuntimeError] naming the directory). *)
Theorem load_fails (o : Outside) (e : failure) :
  load o = inl e ↔
    (environ o !! "HOME" = None ∧ e = PathTypeError)
    ∨ (is_Some (environ o !! "HOME")
       ∧ ∃ e', version_info o = inl e' ∧ e = Raised e')
    ∨ (is_Some (environ o !! "HOME")
       ∧ (∃ v, version_info o = inr v)
       ∧ (¬ ∃ a name rest,
              base_dir o = a +:+ "/" +:+ name +:+ "/www/python/src" +:+ rest
              ∧ has_char "010" a = false ∧ has_char "/" name = false)
       ∧ e = RuntimeError ("BASE_DIR doesn't make sense: " +:+ base_dir o)).
Proof.
  unfold load, join_logs, percent_s. rewrite append_empty_r.
  destruct (environ o !! "HOME") as [home|] eqn:Hhome.
  - assert (is_Some (Some home)) as Hsome by by eexists.
    destruct (String.eqb home "" || endswith home "/");
      (destruct (version_info o) as [e'|v] eqn:Hv;
       [ split;
         [ intros [= <-]; right; left; split; [done|]; by exists e'
         | intros [[[=] _]|[[_ (e'' & [= <-] & ->)]|(_ & [v' [=]] & _)]];
           done ]
       | destruct (tool_name_match (base_dir o)) as [name|] eqn:Hm;
         [ split; [done|];
           intros [[[=] _]|[[_ (e'' & [=] & _)]|(_ & _ & Hno & _)]];
           destruct Hno;
           apply tool_name_match_split in Hm as [Hname (a & rest & -> & Ha)];
           by exists a, name, rest
         | split;
           [ intros [= <-]; right; right; split; [done|];
             split; [by exists v|]; split; [|done];
             intros (a & name & rest & Hbase & Ha & Hname);
             rewrite Hbase in Hm;
             destruct (tool_name_match_found a name rest Ha Hname) as [n Hn];
             change ("/" +:+ name +:+ "/www/python/src" +:+ rest)
               with (String "/" (name +:+ "/www/python/src" +:+ rest)) in Hm;
             congruence
           | intros [[[=] _]|[[_ (e'' & [=] & _)]|(_ & _ & _ & ->)]]; done ] ] ]).
  - split.
    + intros [= <-]. by left.
    + intros [[_ ->]|[[[x [=]] _]|[[x [=]] _]]]. done.
Qed.

(** X13: whenever the settings module loads, [TOOL_NAME] has no slash
    and is a component of [BASE_DIR] directly in front of
    [/www/python/src], [STATIC_URL] is [/<TOOL_NAME>/static/] and the
    log directory lies under [HOME]. *)
Theorem load_sound (o : Outside) (st : Module_settings) :
  load o = inr st →
  has_char "/" (TOOL_NAME st) = false
  ∧ (∃ a rest,
       BASE_DIR st =
         a +:+ "/" +:+ TOOL_NAME st +:+ "/www/python/src" +:+ rest)
  ∧ STATIC_URL st = "/" +:+ TOOL_NAME st +:+ "/static/"
  ∧ ∃ home, environ o !! "HOME" = Some home
            ∧ String.prefix home (LOG_DIR st) = true
            ∧ endswith (LOG_DIR st) "logs" = true.
Proof.
  unfold load, join_logs.
  destruct (environ o !! "HOME") as [home|]; [|done].
  assert (∀ s, endswith (s +:+ "logs") "logs" = true) as Hlogs.
  { intros s. unfold endswith, String.rev.
    assert (∀ a b acc, String.rev_app (a +:+ b) acc
                       = String.rev_app b (String.rev_app a acc)) as Happ.
    { induction a as [|x a IH]; intros b acc; [done|].
      change (String.rev_app (a +:+ b) (String x acc)
              = String.rev_app b (String.rev_app a (String x acc))).
      apply IH. }
    rewrite Happ. apply (prefix_append "sgol"). }
  destruct (String.eqb home "" || endswith home "/");
    (destruct (version_info o) as [e'|v]; [done|];
     destruct (tool_name_match (base_dir o)) as [name|] eqn:Hm; [|done];
     intros [= <-]; simpl;
     apply tool_name_match_split in Hm as [Hname (a & rest & Hbase & _)];
     split; [done|]; split; [by exists a, rest|]; split; [done|];
     exists home; split; [done|]; split; [apply prefix_append|]).
  - apply Hlogs.
  - rewrite <- append_assoc. apply Hlogs.
Qed.

(** X14: [ready] never fails when the argument vector has a program
    name, and it gives the logger nothing exactly when [manage.py]
    occurs in that name; otherwise it gives it one record with the
    application's name and the whole argument vector. *)
Theorem ready_logs (argv0 : string) (args : list string) :
  (ready (argv0 :: args)).2 = inr tt
  ∧ ((ready (argv0 :: args)).1 = []
     ↔ ∃ pre post, argv0 = pre +:+ "manage.py" +:+ post)
  ∧ ((ready (argv0 :: args)).1 = []
     ∨ (ready (argv0 :: args)).1 =
         [{| app_name := "tools_app"; app_argv := argv0 :: args |}]).
Proof.
  unfold ready. rewrite <- contains_split.
  destruct (contains "manage.py" argv0); simpl; repeat split; auto; done.
Qed.

End Settings_module.

(** ** More about the methods *)

Section More.

Context (settings : Settings) (wiki : MediaWiki).
Context (struct_to_datetime : struct_time -> datetime)
        (isoparse : string -> result datetime)
        (fromisoformat : string -> result datetime).
Context {Template Param : Type}
        (templates : string -> list Template)
        (name_matches : Template -> string -> bool)
        (Template_get : Template -> Z -> option Param)
        (Param_str : Param -> string).
Context {SpiCase SpiIpInfo : Type}
        (SpiCase_new : list SpiSourceDocument -> result SpiCase)
        (find_all_ips : SpiCase -> result (list SpiIpInfo)).

Lemma quiet_ret {A} (a : A) : quiet (ret a).
Proof. by intros σ. Qed.

Lemma quiet_raise {A} (e : exn) : quiet (raise (A:=A) e).
Proof. by intros σ. Qed.

Lemma quiet_lift {A} (r : result A) : quiet (lift r).
Proof. by intros σ. Qed.

Lemma quiet_log (r : log_record) : quiet (log r).
Proof. by intros σ. Qed.

Lemma quiet_bind {A B} (m : M A) (k : A → M B) :
  quiet m → (∀ a, quiet (k a)) → quiet (bind m k).
Proof.
  intros Hm Hk σ. unfold bind. specialize (Hm σ).
  destruct (m σ) as [[e|a] σ']; simpl in *; [done|].
  destruct (Hk a σ') as (-> & -> & ->). done.
Qed.

Lemma quiet_for_acc {A S} (l : list A) (body : A → S → M S) :
  (∀ x acc, quiet (body x acc)) → ∀ acc, quiet (for_acc l acc body).
Proof.
  intros Hbody. induction l as [|x l IH]; intros acc; simpl.
  - apply quiet_ret.
  - apply quiet_bind; [apply Hbody | apply IH].
Qed.

Lemma gen_quiet_done {A} : gen_quiet (gen_done (A:=A)).
Proof. by intros σ. Qed.

Lemma gen_quiet_yield {A} (a : A) : gen_quiet (yield a).
Proof. by intros σ. Qed.

Lemma gen_quiet_seq {A} (g1 g2 : G A) :
  gen_quiet g1 → gen_quiet g2 → gen_quiet (gen_seq g1 g2).
Proof.
  intros H1 H2 σ. unfold gen_seq. specialize (H1 σ).
  destruct (g1 σ) as [[ys [e|]] σ']; simpl in *; [done|].
  specialize (H2 σ'). destruct (g2 σ') as [[zs e] σ'']; simpl in *.
  destruct H2 as (-> & -> & ->). done.
Qed.

Lemma gen_quiet_for {A B} (l : list A) (body : A → G B) :
  (∀ x, gen_quiet (body x)) → gen_quiet (gen_for l body).
Proof.
  intros Hbody. induction l as [|x l IH]; simpl.
  - apply gen_quiet_done.
  - apply gen_quiet_seq; [apply Hbody | apply IH].
Qed.

Lemma gen_quiet_bind {A B} (m : M A) (k : A → G B) :
  quiet m → (∀ a, gen_quiet (k a)) → gen_quiet (gen_bind m k).
Proof.
  intros Hm Hk σ. unfold gen_bind. specialize (Hm σ).
  destruct (m σ) as [[e|a] σ']; simpl in *; [done|].
  destruct (Hk a σ') as (-> & -> & ->). done.
Qed.

Create HintDb quiet.
#[local] Hint Resolve quiet_ret quiet_raise quiet_lift quiet_log
  gen_quiet_done gen_quiet_yield : quiet.

(** One step of a proof that a loop talks to no wiki. *)
Ltac quiet_step :=
  first
    [ solve [auto with quiet]
    | apply quiet_bind; [|intros ?]
    | apply gen_quiet_bind; [|intros ?]
    | apply quiet_for_acc; intros ? ?
    | apply gen_quiet_for; intros ?
    | match goal with
      | |- quiet (match ?x with _ => _ end) => destruct x
      | |- gen_quiet (match ?x with _ => _ end) => destruct x
      end ].

Lemma quiet_block_entry (user_name : string) (b : gmap string value)
    (events : list event) :
  quiet (block_entry struct_to_datetime isoparse user_name b events).
Proof. unfold block_entry. repeat quiet_step. Qed.

Lemma quiet_deleted_revision (page : gmap string value) (revision : value) :
  quiet (deleted_revision fromisoformat page revision).
Proof. unfold deleted_revision. repeat quiet_step. Qed.

(** The whole run of [get_case_ips] on a constructed [Wiki]. *)
Lemma get_case_ips_run (case_name : string) (s : Site) (σ : state) :
  self_site σ = Some s →
  get_case_ips wiki SpiCase_new find_all_ips case_name σ =
    (match SpiCase_new
             (document wiki (case_page case_name) ::
              if truthy (VStr (page_text wiki (archive_page case_name)))
              then [document wiki (archive_page case_name)] else []) with
     | inr case => find_all_ips case
     | inl e => inl e
     end,
     {| self_site := self_site σ; constructed := constructed σ;
        traffic := traffic σ ++ [(s, PageText (case_page case_name));
                                 (s, PageText (archive_page case_name))];
        logged := logged σ |}).
Proof.
  intros Hs. unfold get_case_ips.
  rewrite percent_s_case_page, percent_s_archive_page.
  unfold bind at 1. rewrite (pages_text_run _ _ s) by done.
  unfold bind at 1. rewrite (pages_text_run _ _ s) by done.
  unfold bind, lift. simpl. rewrite <- app_assoc. simpl.
  fold (document wiki (case_page case_name)).
  fold (document wiki (archive_page case_name)).
  destruct (negb _); simpl; by destruct (SpiCase_new _).
Qed.

(** X1: [get_case_ips(name)] is [get_case(name, use_archive=True)]
    followed by [find_all_ips()] on the case: the same result or
    exception and the same calls to the wiki, in every state. *)
Theorem get_case_ips_as_get_case (case_name : string) (σ : state) :
  get_case_ips wiki SpiCase_new find_all_ips case_name σ =
    (let* case := get_case wiki SpiCase_new case_name true in
     lift (find_all_ips case)) σ.
Proof.
  destruct (self_site σ) as [s|] eqn:Hs.
  - rewrite (get_case_ips_run _ s) by done.
    unfold bind. rewrite (get_case_run _ _ _ _ s) by done. simpl.
    destruct (negb _); simpl; by destruct (SpiCase_new _).
  - destruct σ as [site cs tr lg]. simpl in Hs. subst site. reflexivity.
Qed.

(** The calls of one operation. *)
Lemma perform_traffic (op : operation) (s : Site) (σ : state) :
  self_site σ = Some s →
  traffic (perform wiki struct_to_datetime isoparse fromisoformat templates
                   name_matches Template_get Param_str SpiCase_new
                   find_all_ips op σ)
  = traffic σ ++ ((fun c => (s, c)) <$> calls_of op).
Proof.
  intros Hs. destruct op as [|t|n|u|n a|u|u|u]; simpl.
  - unfold get_current_case_names, bind.
    rewrite (pages_text_run _ _ s) by done. by destruct (map_result _ _).
  - destruct σ as [site cs tr lg]. simpl in Hs. by subst site.
  - by rewrite (get_case_ips_run _ s).
  - destruct σ as [site cs tr lg]. simpl in Hs. subst site.
    unfold get_registration_time, bind, get_site, call. simpl.
    destruct (users wiki [u] ["registration"]) as [|r rest]; [done|].
    simpl. by destruct (getitem r "registration") as [[]|].
  - rewrite (get_case_run _ _ _ _ s) by done. by destruct a.
  - destruct σ as [site cs tr lg]. simpl in Hs. subst site.
    unfold user_contributions, gen_bind at 1 2, get_site, call. simpl.
    match goal with
    | |- traffic (gen_for ?l ?body ?σ1).2 = _ =>
        assert (gen_quiet (gen_for l body)) as Hq
          by (repeat quiet_step);
        destruct (Hq σ1) as (_ & _ & ->)
    end.
    done.
  - destruct σ as [site cs tr lg]. simpl in Hs. subst site.
    unfold deleted_user_contributions, gen_bind at 1 2, get_site, call.
    simpl.
    match goal with
    | |- traffic (gen_for ?l ?body ?σ1).2 = _ =>
        assert (gen_quiet (gen_for l body)) as Hq
          by (repeat quiet_step; apply quiet_deleted_revision);
        destruct (Hq σ1) as (_ & _ & ->)
    end.
    done.
  - destruct σ as [site cs tr lg]. simpl in Hs. subst site.
    unfold get_user_blocks, bind at 1 2, get_site, call. simpl.
    match goal with
    | |- traffic (for_acc ?l ?acc ?body ?σ1).2 = _ =>
        assert (quiet (for_acc l acc body)) as Hq
          by (apply quiet_for_acc; intros; apply quiet_block_entry);
        destruct (Hq σ1) as (_ & _ & ->)
    end.
    done.
Qed.

(** X3: when the user query yields no record at all,
    [get_registration_time] does not return [None]: the [next()] on the
    empty listing raises [StopIteration]. *)
Theorem get_registration_time_no_record (user : string) (s : Site)
    (σ : state) :
  self_site σ = Some s →
  users wiki [user] ["registration"] = [] →
  (get_registration_time wiki user σ).1 = inl StopIteration.
Proof.
  intros Hs Hnone. destruct σ as [site cs tr lg]. simpl in Hs. subst site.
  unfold get_registration_time, bind, get_site, call. simpl.
  by rewrite Hnone.
Qed.

(** What the loop body of [get_user_blocks] does to the state: an entry
    that is not an unblock goes to the logger, whatever else happened
    to it. *)
Lemma block_entry_logged (user_name : string) (b : gmap string value)
    (events : list event) (σ : state) (action : value) (time : datetime)
    (expiry : value) :
  entry_fields struct_to_datetime isoparse b = Some (action, time, expiry) →
  ∃ σ',
    block_entry struct_to_datetime isoparse user_name b events σ =
      (inr (events ++ event_for user_name action time expiry), σ')
    ∧ logged σ' = logged σ ++ (if is_unblock b then [] else [ignored b]).
Proof.
  unfold entry_fields, is_unblock.
  destruct (b !! "action") as [a|] eqn:Ha; [|done].
  destruct (b !! "timestamp") as [[| | | |t| | |]|] eqn:Ht; try done.
  destruct (b !! "params") as [[| | | | | | |p]|] eqn:Hp; try done.
  destruct (and_isoparse isoparse (default VNone (p !! "expiry")))
    as [ex|e] eqn:He; [done|].
  intros [= <- <- <-].
  unfold block_entry, bind, lift, getitem. rewrite Ha, Ht, Hp. simpl.
  rewrite He. unfold event_for, ignored.
  destruct a as [| | |act| | | |]; simpl;
    try (eexists; split; [by rewrite app_nil_r | done]).
  destruct (String.eqb_spec act "block") as [->|_]; simpl;
    [eexists; split; done|].
  destruct (String.eqb_spec act "reblock") as [->|_]; simpl;
    [eexists; split; done|].
  destruct (String.eqb_spec act "unblock") as [->|_]; simpl.
  - eexists. split; [done|]. by rewrite app_nil_r.
  - eexists. split; [by rewrite app_nil_r | done].
Qed.

Lemma block_entries_logged (user_name : string)
    (l : list (gmap string value)) (events : list event) (σ : state) :
  Forall (fun b => is_Some (entry_fields struct_to_datetime isoparse b)) l →
  ∃ evs σ',
    for_acc l events (block_entry struct_to_datetime isoparse user_name) σ =
      (inr evs, σ')
    ∧ logged σ' =
        logged σ ++ (ignored <$> filter (fun b => is_unblock b = false) l).
Proof.
  intros Hl. revert events σ.
  induction Hl as [|b l [[[a t] e] Hb] _ IH]; intros events σ.
  - exists events, σ. simpl. by rewrite app_nil_r.
  - destruct (block_entry_logged user_name b events σ a t e Hb)
      as (σ1 & Hrun & Hlog).
    destruct (IH (events ++ event_for user_name a t e) σ1)
      as (evs & σ2 & Hrest & Hlog2).
    exists evs, σ2. split.
    + simpl. unfold bind. by rewrite Hrun, Hrest.
    + rewrite Hlog2, Hlog, <- app_assoc. f_equal.
      destruct (is_unblock b) eqn:Hu.
      * by rewrite filter_cons_False by congruence.
      * by rewrite filter_cons_True by done.
Qed.

(** X4: for the block-log entries the client returns,
    [get_user_blocks] hands to the logger, as an ignored entry with an
    unknown action, every entry whose action is not ['unblock'], in
    order: the blocks and reblocks it has recorded as events as well as
    the entries of other kinds; unblocks alone are not logged. *)
Theorem get_user_blocks_logged (user_name : string) (s : Site) (σ : state) :
  self_site σ = Some s →
  Forall (fun b => is_Some (entry_fields struct_to_datetime isoparse b))
         (logevents wiki ("User:" +:+ user_name) "block" "newer") →
  logged (get_user_blocks wiki struct_to_datetime isoparse user_name σ).2 =
    logged σ
    ++ (ignored <$> filter (fun b => is_unblock b = false)
                           (logevents wiki ("User:" +:+ user_name) "block"
                                      "newer")).
Proof.
  intros Hs Hentries.
  destruct σ as [site cs tr lg]. simpl in Hs. subst site.
  unfold get_user_blocks, bind, get_site, call. simpl.
  edestruct (block_entries_logged user_name
               (logevents wiki ("User:" +:+ user_name) "block" "newer") [])
    as (evs & σ' & Hrun & Hlog); [exact Hentries|].
  rewrite Hrun. simpl. by rewrite Hlog.
Qed.

(** An entry the loop body cannot read makes it raise. *)
Lemma block_entry_raises (user_name : string) (b : gmap string value)
    (events : list event) (σ : state) :
  entry_fields struct_to_datetime isoparse b = None →
  ∃ e σ',
    block_entry struct_to_datetime isoparse user_name b events σ =
      (inl e, σ').
Proof.
  intros Hb. unfold entry_fields in Hb.
  unfold block_entry, bind, lift, getitem.
  destruct (b !! "action") as [a|]; [|by eexists _, _].
  destruct (b !! "timestamp") as [[| | | |t| | |]|]; simpl;
    try (by eexists _, _).
  destruct (b !! "params") as [[| | | | | | |p]|]; simpl;
    try (by eexists _, _).
  destruct (and_isoparse isoparse (default VNone (p !! "expiry")))
    as [ex|e]; [by eexists _, _ | done].
Qed.

Lemma block_entries_raise (user_name : string)
    (l : list (gmap string value)) (events : list event) (σ : state) :
  Exists (fun b => entry_fields struct_to_datetime isoparse b = None) l →
  ∃ e σ',
    for_acc l events (block_entry struct_to_datetime isoparse user_name) σ =
      (inl e, σ').
Proof.
  intros Hl. revert events σ.
  induction l as [|b l IH]; intros events σ; [by inversion Hl|].
  simpl. unfold bind.
  destruct (entry_fields struct_to_datetime isoparse b) as [[[a t] ex]|]
    eqn:Hb.
  - destruct (block_entry_logged user_name b events σ a t ex Hb)
      as (σ1 & -> & _).
    apply IH. inversion Hl as [? ? Hbad|]; [congruence | done].
  - destruct (block_entry_raises user_name b events σ Hb) as (e & σ1 & ->).
    by eexists _, _.
Qed.

(** X5: one entry that [get_user_blocks] cannot read (no action, no
    struct_time timestamp, no dict of parameters, or an expiry that
    [isoparse] rejects) makes the whole call raise: no history is
    returned, not even the events of the entries before it. *)
Theorem get_user_blocks_unreadable (user_name : string) (s : Site)
    (σ : state) :
  self_site σ = Some s →
  Exists (fun b => entry_fields struct_to_datetime isoparse b = None)
         (logevents wiki ("User:" +:+ user_name) "block" "newer") →
  ∃ e,
    (get_user_blocks wiki struct_to_datetime isoparse user_name σ).1 = inl e.
Proof.
  intros Hs Hbad.
  destruct σ as [site cs tr lg]. simpl in Hs. subst site.
  unfold get_user_blocks, bind, get_site, call. simpl.
  edestruct (block_entries_raise user_name
               (logevents wiki ("User:" +:+ user_name) "block" "newer") [])
    as (e & σ' & Hrun); [exact Hbad|].
  rewrite Hrun. by exists e.
Qed.

Lemma user_contributions_stops_loop (good rest : list (gmap string value))
    (bad : gmap string value) (σ : state) :
  Forall contribution_record good →
  ¬ contribution_record bad →
  ∃ ys e,
    gen_for (good ++ bad :: rest) (fun contrib =>
      gen* c :=
        (let* ts := lift (getitem contrib "timestamp") in
         let* dt := lift (to_datetime struct_to_datetime ts) in
         let* t := lift (getitem contrib "title") in
         let* c := lift (getitem contrib "comment") in
         ret (WikiContrib_new dt t c None)) in
      yield c) σ = ((ys, Some e), σ)
    ∧ Forall2 (contrib_of struct_to_datetime) good ys.
Proof.
  set (body := fun contrib : gmap string value => _).
  intros Hgood Hbad.
  induction Hgood as [|r l (t & ti & co & Ht & Hti & Hco) _
                        (ys & e & Hrun & Hys)].
  - assert (∃ e, body bad σ = (([], Some e), σ)) as [e Hbody].
    { unfold body, gen_bind, bind, lift, getitem, to_datetime.
      destruct (bad !! "timestamp") as [[| | | |t| | |]|] eqn:Ht; simpl;
        try by eexists.
      destruct (bad !! "title") as [ti|] eqn:Hti; [|by eexists].
      destruct (bad !! "comment") as [co|] eqn:Hco; [|by eexists].
      destruct Hbad. by exists t, ti, co. }
    exists [], e. split; [|constructor].
    change (gen_for ([] ++ bad :: rest) body σ)
      with (gen_seq (body bad) (gen_for rest body) σ).
    unfold gen_seq. by rewrite Hbody.
  - exists (WikiContrib_new (struct_to_datetime t) ti co None :: ys), e.
    split.
    + assert (body r σ =
                (([WikiContrib_new (struct_to_datetime t) ti co None], None), σ))
        as Hbody.
      { unfold body, gen_bind, bind, lift, getitem. rewrite Ht. simpl.
        by rewrite Hti, Hco. }
      change (gen_for ((r :: l) ++ bad :: rest) body σ)
        with (gen_seq (body r) (gen_for (l ++ bad :: rest) body) σ).
      unfold gen_seq. by rewrite Hbody, Hrun.
    + constructor; [|done]. exists t. done.
Qed.

(** X6: a record that is not a full contribution record (for example
    one whose edit summary is hidden, so that it has no ['comment'])
    ends [user_contributions] with an exception at that record: the
    contributions of the records before it have been yielded, one each
    and in order, and nothing of it or after it is. *)
Theorem user_contributions_stops (user_name : string) (s : Site) (σ : state)
    (good rest : list (gmap string value)) (bad : gmap string value) :
  self_site σ = Some s →
  usercontributions wiki user_name = good ++ bad :: rest →
  Forall contribution_record good →
  ¬ contribution_record bad →
  ∃ ys e,
    (user_contributions wiki struct_to_datetime user_name σ).1 = (ys, Some e)
    ∧ Forall2 (contrib_of struct_to_datetime) good ys.
Proof.
  intros Hs Hrecords Hgood Hbad.
  destruct σ as [site cs tr lg]. simpl in Hs. subst site.
  unfold user_contributions, gen_bind at 1 2, get_site, call. simpl.
  rewrite Hrecords.
  edestruct user_contributions_stops_loop as (ys & e & Hrun & Hys);
    [exact Hgood | exact Hbad |].
  rewrite Hrun. by exists ys, e.
Qed.

Lemma for_acc_returns {A S} (P : S → Prop) (l : list A)
    (body : A → S → M S) :
  (∀ x acc, P acc → returns_only P (body x acc)) →
  ∀ acc, P acc → returns_only P (for_acc l acc body).
Proof.
  intros Hbody. induction l as [|x l IH]; intros acc Hacc; simpl.
  - by apply returns_ret.
  - intros σ a σ'. unfold bind.
    destruct (body x acc σ) as [[e|acc'] σ1] eqn:Hrun; [done|].
    apply IH. by eapply Hbody.
Qed.


(** X7: every event [get_user_blocks] returns is about the user name
    it was called with, whatever the log entries say. *)
Theorem get_user_blocks_names (user_name : string) (σ : state)
    (events : list event) :
  (get_user_blocks wiki struct_to_datetime isoparse user_name σ).1 =
    inr events →
  Forall (fun e => event_user e = user_name) events.
Proof.
  destruct (get_user_blocks wiki struct_to_datetime isoparse user_name σ)
    as [res σ'] eqn:Hrun.
  simpl. intros ->. revert Hrun. unfold get_user_blocks.
  assert (returns_only (Forall (fun e => event_user e = user_name))
            (let* s := get_site in
             run* call s (LogEvents ("User:" +:+ user_name) "block" "newer") in
             for_acc (logevents wiki ("User:" +:+ user_name) "block" "newer")
                     [] (block_entry struct_to_datetime isoparse user_name)))
    as Hret; [|by apply Hret].
  apply returns_bind; intros s. apply returns_bind; intros _.
  apply for_acc_returns; [|constructor].
  intros b acc Hacc. unfold block_entry.
  repeat (apply returns_bind; intros ?).
  assert (∀ evs, Forall (fun e => event_user e = user_name) evs →
                 ∀ ev, event_user ev = user_name →
                       Forall (fun e => event_user e = user_name)
                              (evs ++ [ev])) as Hadd.
  { intros evs Hevs ev Hev. apply Forall_app. split; [done|].
    by constructor. }
  destruct (eq_str _ "block"), (eq_str _ "reblock"), (eq_str _ "unblock");
    try (apply returns_ret; repeat apply Hadd; done);
    (apply returns_bind; intros _; apply returns_ret;
     repeat apply Hadd; done).
Qed.

Lemma rev_app_append (a b acc : string) :
  String.rev_app (a +:+ b) acc = String.rev_app b (String.rev_app a acc).
Proof.
  revert acc. induction a as [|x a IH]; intros acc; [done|].
  change (String.rev_app (a +:+ b) (String x acc)
          = String.rev_app b (String.rev_app a (String x acc))).
  apply IH.
Qed.

Lemma endswith_append (body suffix : string) :
  endswith (body +:+ suffix) suffix = true.
Proof.
  unfold endswith, String.rev. rewrite rev_app_append.
  assert (∀ s acc, String.rev_app s acc = String.rev_app s "" +:+ acc)
    as Hacc.
  { induction s as [|x s IH]; intros acc; [done|]. simpl.
    rewrite (IH (String x acc)), (IH (String x "")).
    by rewrite append_assoc. }
  rewrite (Hacc suffix (String.rev_app body "")). apply prefix_append.
Qed.

Lemma drop_last_append (body : string) (c : Ascii.ascii) :
  drop_last (body +:+ String c "") = body.
Proof.
  unfold drop_last.
  assert (String.length (body +:+ String c "") - 1 = String.length body)
    as ->.
  { induction body as [|x body IH]; [done|].
    change (S (String.length (body +:+ String c "")) - 1
            = S (String.length body)).
    assert (String.length (body +:+ String c "") ≠ 0)
      by (clear; destruct body; done).
    lia. }
  induction body as [|x body IH]; [done|].
  change (String x (String.substring 0 (String.length body)
                                     (body +:+ String c ""))
          = String x body).
  by rewrite IH.
Qed.

(** X8: for a deleted revision whose timestamp is some text followed by
    [Z], what [datetime.fromisoformat] is given is that text followed by
    [+00:00]: only the final [Z] is replaced; its datetime becomes the
    timestamp of the [WikiContrib], with the page's title, the
    revision's comment and [is_live] false, and its exception, if it
    raises, is what the iteration raises. *)
Theorem deleted_revision_offset (page r : gmap string value) (t c : value)
    (body : string) (σ : state) :
  page !! "title" = Some t →
  r !! "timestamp" = Some (VStr (body +:+ "Z")) →
  r !! "comment" = Some c →
  (deleted_revision fromisoformat page (VDict r) σ).1 =
    match fromisoformat (body +:+ "+00:00") with
    | inr d => inr {| timestamp := d; title := t; comment := c;
                      is_live := false |}
    | inl e => inl e
    end.
Proof.
  intros Ht Hts Hc.
  rewrite (deleted_revision_run _ _ _ t c (body +:+ "Z")); [|done|].
  - unfold revision_outcome.
    by rewrite endswith_append, drop_last_append.
  - simpl. by rewrite Hts, Hc.
Qed.

(** X9: a handle that [get_mw_site] constructs always has the site
    name and the user agent of the settings, whoever asks; its
    credentials hold nothing but the four OAuth entries, and for an
    authenticated user the consumer token and secret are the settings'
    (also when these are [None] because the environment did not set
    them). *)
Theorem get_mw_site_handle (request : option HttpRequest) (σ : state)
    (site : Site) :
  (get_mw_site settings request σ).1 = inr site →
  host site = MEDIAWIKI_SITE_NAME settings
  ∧ clients_useragent site = MEDIAWIKI_USER_AGENT settings
  ∧ dom (auth_info site) ⊆
      ({["consumer_token"; "consumer_secret"; "access_token";
         "access_secret"]} : gset string)
  ∧ (signed_in request = true →
     auth_info site !! "consumer_token" =
       Some (SOCIAL_AUTH_MEDIAWIKI_KEY settings)
     ∧ auth_info site !! "consumer_secret" =
         Some (SOCIAL_AUTH_MEDIAWIKI_SECRET settings)
     ∧ is_Some (auth_info site !! "access_token")
     ∧ is_Some (auth_info site !! "access_secret")).
Proof.
  rewrite get_mw_site_run. cbv zeta.
  destruct request as [r|]; simpl;
    [destruct (is_anonymous (get_user r));
     [| destruct (mediawiki_tokens (get_user r)) as [e|[tok sec]] ] |];
    intros Heq; simpl in Heq; simplify_eq; simpl;
    (split; [done|]); (split; [done|]);
    (split; [|try done]);
    try (rewrite dom_empty_L; set_solver).
  unfold oauth_credentials. rewrite !dom_insert_L, dom_empty_L. set_solver.
Qed.

(** X10: when no template of the overview page matches
    [SPIstatusentry] (an empty page, say) [get_current_case_names]
    returns the empty list, also when templates of other names have no
    parameters: they are never asked for one. *)
Theorem get_current_case_names_none (s : Site) (σ : state) :
  self_site σ = Some s →
  Forall (fun t => name_matches t "SPIstatusentry" = false)
         (templates (page_text wiki overview_page)) →
  (get_current_case_names wiki templates name_matches Template_get
                          Param_str σ).1 = inr [].
Proof.
  intros Hs Hnone. unfold get_current_case_names, bind.
  rewrite (pages_text_run _ _ s) by done. simpl.
  rewrite filter_none; [done|].
  eapply Forall_impl; [exact Hnone|]. simpl. intros t Ht. congruence.
Qed.

(** X2: on a constructed [Wiki] every sequence of operations makes
    exactly the calls of [calls_of], operation by operation and in
    order, all of them through the one handle stored in [site],
    whatever the wiki answers and whether or not an operation raises. *)
Theorem session_traffic (ops : list operation) (s : Site) (σ : state) :
  self_site σ = Some s →
  traffic
    (foldl (fun σ op =>
              perform wiki struct_to_datetime isoparse fromisoformat
                      templates name_matches Template_get Param_str
                      SpiCase_new find_all_ips op σ) σ ops)
  = traffic σ ++ ((fun c => (s, c)) <$> (ops ≫= calls_of)).
Proof.
  revert σ. induction ops as [|op ops IH]; intros σ Hs; simpl.
  - by rewrite app_nil_r.
  - rewrite IH.
    + rewrite (perform_traffic op s) by done.
      change (list_bind _ _ calls_of ops) with (ops ≫= calls_of).
      by rewrite fmap_app, app_assoc.
    + destruct (perform_keeps wiki struct_to_datetime isoparse fromisoformat
                  templates name_matches Template_get Param_str SpiCase_new
                  find_all_ips op σ) as [-> _].
      done.
Qed.

(** X15: for entries without an ['expiry'] parameter (blocks without
    an end) [get_user_blocks] does not consult [isoparse] at all: it
    returns, and the expiry of every [BlockEvent] is [None]. *)
Theorem get_user_blocks_no_expiry (user_name : string) (s : Site)
    (σ : state) :
  self_site σ = Some s →
  Forall (fun b => ∃ a t p, b !! "action" = Some a
                            ∧ b !! "timestamp" = Some (VTime t)
                            ∧ b !! "params" = Some (VDict p)
                            ∧ p !! "expiry" = None)
         (logevents wiki ("User:" +:+ user_name) "block" "newer") →
  ∃ events,
    (get_user_blocks wiki struct_to_datetime isoparse user_name σ).1 =
      inr events
    ∧ Forall (fun e => match e with
                       | BlockEvent _ _ expiry _ => expiry = VNone
                       | UnblockEvent _ _ => True
                       end) events.
Proof.
  intros Hs Hentries.
  assert (∀ b, (∃ a t p, b !! "action" = Some a
                         ∧ b !! "timestamp" = Some (VTime t)
                         ∧ b !! "params" = Some (VDict p)
                         ∧ p !! "expiry" = None) →
               ∃ a t, entry_fields struct_to_datetime isoparse b
                      = Some (a, struct_to_datetime t, VNone)) as Hfields.
  { intros b (a & t & p & Ha & Ht & Hp & He). exists a, t.
    unfold entry_fields. by rewrite Ha, Ht, Hp, He. }
  destruct σ as [site cs tr lg]. simpl in Hs. subst site.
  unfold get_user_blocks, bind, get_site, call. simpl.
  edestruct (block_entries_run struct_to_datetime isoparse user_name
               (logevents wiki ("User:" +:+ user_name) "block" "newer") [])
    as [σ' Hrun].
  { eapply Forall_impl; [exact Hentries|]. simpl. intros b Hb.
    destruct (Hfields b Hb) as (a & t & ->). by eexists. }
  rewrite Hrun. eexists. split; [reflexivity|]. simpl. clear Hrun.
  induction Hentries as [|b l Hb _ IH]; [constructor|].
  change ((b :: l) ≫= ?f) with (f b ++ (l ≫= f)). apply Forall_app.
  split; [|exact IH].
  destruct (Hfields b Hb) as (a & t & Hf).
  unfold events_of. rewrite Hf. unfold event_for.
  destruct (eq_str a "block"); [by repeat constructor|].
  destruct (eq_str a "reblock"); [by repeat constructor|].
  destruct (eq_str a "unblock"); by repeat constructor.
Qed.

End More.

(** ** More runs on the example wiki *)

Lemma session_traffic_Alice :
  self_site Example.ready = Some Example.anonymous_site
  ∧ traffic
      (foldl (fun σ op =>
                perform Example.wiki Example.struct_to_datetime
                        Example.isoparse Example.fromisoformat
                        Example.templates Example.name_matches
                        Example.Template_get Example.Param_str
                        Example.SpiCase_new Example.find_all_ips op σ)
             Example.ready
             [Get_current_case_names; Get_case "Alice" false;
              Get_user_blocks "Alice"; Deleted_user_contributions "Bob"])
    = traffic Example.ready
      ++ ((fun c => (Example.anonymous_site, c))
            <$> ([Get_current_case_names; Get_case "Alice" false;
                  Get_user_blocks "Alice"; Deleted_user_contributions "Bob"]
                 ≫= calls_of)).
Proof.
  split; [reflexivity|].
  apply (session_traffic Example.wiki Example.struct_to_datetime
           Example.isoparse Example.fromisoformat Example.templates
           Example.name_matches Example.Template_get Example.Param_str
           Example.SpiCase_new Example.find_all_ips
           [Get_current_case_names; Get_case "Alice" false;
            Get_user_blocks "Alice"; Deleted_user_contributions "Bob"]
           Example.anonymous_site Example.ready).
  reflexivity.
Defined.

Lemma get_registration_time_no_record_Dave :
  self_site Example.ready = Some Example.anonymous_site
  ∧ users Cases.wiki ["Dave"] ["registration"] = []
  ∧ (get_registration_time Cases.wiki "Dave" Example.ready).1 =
      inl StopIteration.
Proof.
  split; [reflexivity|]. split; [reflexivity|].
  apply (get_registration_time_no_record Cases.wiki "Dave"
           Example.anonymous_site Example.ready); reflexivity.
Defined.

Lemma get_user_blocks_logged_Alice :
  self_site Example.ready = Some Example.anonymous_site
  ∧ Forall (fun b => is_Some (entry_fields Example.struct_to_datetime
                                           Example.isoparse b))
           (logevents Example.wiki ("User:" +:+ "Alice") "block" "newer")
  ∧ logged (get_user_blocks Example.wiki Example.struct_to_datetime
                            Example.isoparse "Alice" Example.ready).2 =
      logged Example.ready
      ++ (ignored <$> filter (fun b => is_unblock b = false)
                             (logevents Example.wiki ("User:" +:+ "Alice")
                                        "block" "newer")).
Proof.
  assert (Forall (fun b => is_Some (entry_fields Example.struct_to_datetime
                                                 Example.isoparse b))
                 (logevents Example.wiki ("User:" +:+ "Alice") "block" "newer"))
    as Hentries.
  { vm_compute. repeat (constructor; [eexists; reflexivity|]). constructor. }
  split; [reflexivity|]. split; [exact Hentries|].
  apply (get_user_blocks_logged Example.wiki Example.struct_to_datetime
           Example.isoparse "Alice" Example.anonymous_site Example.ready);
    [reflexivity | exact Hentries].
Defined.

(** Dave's second log entry has lost its parameters. *)
Lemma get_user_blocks_unreadable_Dave :
  self_site Example.ready = Some Example.anonymous_site
  ∧ Exists (fun b => entry_fields Example.struct_to_datetime
                                  Example.isoparse b = None)
           (logevents Cases.wiki ("User:" +:+ "Dave") "block" "newer")
  ∧ ∃ e,
      (get_user_blocks Cases.wiki Example.struct_to_datetime Example.isoparse
                       "Dave" Example.ready).1 = inl e.
Proof.
  assert (Exists (fun b => entry_fields Example.struct_to_datetime
                                        Example.isoparse b = None)
                 (logevents Cases.wiki ("User:" +:+ "Dave") "block" "newer"))
    as Hbad.
  { vm_compute. apply Exists_cons_tl, Exists_cons_hd. reflexivity. }
  split; [reflexivity|]. split; [exact Hbad|].
  apply (get_user_blocks_unreadable Cases.wiki Example.struct_to_datetime
           Example.isoparse "Dave" Example.anonymous_site Example.ready);
    [reflexivity | exact Hbad].
Defined.

(** Dave's second contribution has a hidden edit summary. *)
Lemma user_contributions_stops_Dave :
  self_site Example.ready = Some Example.anonymous_site
  ∧ usercontributions Cases.wiki "Dave" =
      [Example.contribution "Main Page" "fix"]
      ++ Cases.hidden "Draft" :: [Example.contribution "Talk:Main Page" "re"]
  ∧ Forall contribution_record [Example.contribution "Main Page" "fix"]
  ∧ ¬ contribution_record (Cases.hidden "Draft")
  ∧ ∃ ys e,
      (user_contributions Cases.wiki Example.struct_to_datetime "Dave"
                          Example.ready).1 = (ys, Some e)
      ∧ Forall2 (contrib_of Example.struct_to_datetime)
                [Example.contribution "Main Page" "fix"] ys.
Proof.
  assert (Forall contribution_record [Example.contribution "Main Page" "fix"])
    as Hgood.
  { repeat (constructor;
            [eexists _, _, _; repeat split; vm_compute; reflexivity|]).
    constructor. }
  assert (¬ contribution_record (Cases.hidden "Draft")) as Hbad.
  { intros (t & ti & co & _ & _ & Hco). vm_compute in Hco. discriminate. }
  split; [reflexivity|]. split; [reflexivity|]. split; [exact Hgood|].
  split; [exact Hbad|].
  apply (user_contributions_stops Cases.wiki Example.struct_to_datetime "Dave"
           Example.anonymous_site Example.ready
           [Example.contribution "Main Page" "fix"]
           [Example.contribution "Talk:Main Page" "re"]
           (Cases.hidden "Draft"));
    [reflexivity | reflexivity | exact Hgood | exact Hbad].
Defined.

Lemma get_user_blocks_names_Alice :
  (get_user_blocks Example.wiki Example.struct_to_datetime Example.isoparse
                   "Alice" Example.ready).1 =
    inr [BlockEvent "Alice" (Example.struct_to_datetime Example.stamp)
           (VDatetime {| year := 2020; month := 6; day := 8; hour := 12;
                         minute := 30; second := 0; microsecond := 0;
                         tzoffset := Some 0%Z |}) None;
         UnblockEvent "Alice" (Example.struct_to_datetime Example.stamp);
         BlockEvent "Alice" (Example.struct_to_datetime Example.stamp) VNone
           (Some true)]
  ∧ Forall (fun e => event_user e = "Alice")
      [BlockEvent "Alice" (Example.struct_to_datetime Example.stamp)
         (VDatetime {| year := 2020; month := 6; day := 8; hour := 12;
                       minute := 30; second := 0; microsecond := 0;
                       tzoffset := Some 0%Z |}) None;
       UnblockEvent "Alice" (Example.struct_to_datetime Example.stamp);
       BlockEvent "Alice" (Example.struct_to_datetime Example.stamp) VNone
         (Some true)].
Proof.
  split; [vm_compute; reflexivity|].
  apply (get_user_blocks_names Example.wiki Example.struct_to_datetime
           Example.isoparse "Alice" Example.ready).
  vm_compute. reflexivity.
Defined.

Lemma deleted_revision_offset_Spam :
  Example.deleted_page "Spam" [] !! "title" = Some (VStr "Spam")
  ∧ ({[ "timestamp" := VStr ("2020-06-01T12:30:00" +:+ "Z");
        "comment" := VStr "new" ]} : gmap string value) !! "timestamp" =
      Some (VStr ("2020-06-01T12:30:00" +:+ "Z"))
  ∧ ({[ "timestamp" := VStr ("2020-06-01T12:30:00" +:+ "Z");
        "comment" := VStr "new" ]} : gmap string value) !! "comment" =
      Some (VStr "new")
  ∧ (deleted_revision Example.fromisoformat (Example.deleted_page "Spam" [])
       (VDict {[ "timestamp" := VStr ("2020-06-01T12:30:00" +:+ "Z");
                 "comment" := VStr "new" ]}) Example.ready).1 =
      match Example.fromisoformat ("2020-06-01T12:30:00" +:+ "+00:00") with
      | inr d => inr {| timestamp := d; title := VStr "Spam";
                        comment := VStr "new"; is_live := false |}
      | inl e => inl e
      end.
Proof.
  split; [vm_compute; reflexivity|]. split; [vm_compute; reflexivity|].
  split; [vm_compute; reflexivity|].
  apply (deleted_revision_offset Example.fromisoformat
           (Example.deleted_page "Spam" [])
           {[ "timestamp" := VStr ("2020-06-01T12:30:00" +:+ "Z");
              "comment" := VStr "new" ]}
           (VStr "Spam") (VStr "new") "2020-06-01T12:30:00" Example.ready);
    vm_compute; reflexivity.
Defined.

Lemma get_mw_site_handle_editor :
  (get_mw_site Example.settings (Some Example.editor) Example.fresh).1 =
    inr {| host := VStr "en.wikipedia.org";
           clients_useragent := VStr "spi-tools";
           auth_info := oauth_credentials Example.settings (VStr "tok")
                                          (VStr "sec") |}
  ∧ auth_info
      {| host := VStr "en.wikipedia.org";
         clients_useragent := VStr "spi-tools";
         auth_info := oauth_credentials Example.settings (VStr "tok")
                                        (VStr "sec") |} !! "consumer_secret"
    = Some (SOCIAL_AUTH_MEDIAWIKI_SECRET Example.settings).
Proof.
  split; [vm_compute; reflexivity|].
  apply (get_mw_site_handle Example.settings (Some Example.editor)
           Example.fresh
           {| host := VStr "en.wikipedia.org";
              clients_useragent := VStr "spi-tools";
              auth_info := oauth_credentials Example.settings (VStr "tok")
                                             (VStr "sec") |});
    [vm_compute; reflexivity | reflexivity].
Defined.

(** An overview that holds only a header template without parameters. *)
Lemma get_current_case_names_none_header :
  self_site Example.ready = Some Example.anonymous_site
  ∧ Forall (fun t => Example.name_matches t "SPIstatusentry" = false)
           ((fun _ => [{| Example.t_name := "SPIstatusheader";
                          Example.t_params := [] |}])
              (page_text Example.wiki overview_page))
  ∧ (get_current_case_names Example.wiki
       (fun _ => [{| Example.t_name := "SPIstatusheader";
                     Example.t_params := [] |}])
       Example.name_matches Example.Template_get Example.Param_str
       Example.ready).1 = inr [].
Proof.
  assert (Forall (fun t => Example.name_matches t "SPIstatusentry" = false)
                 [{| Example.t_name := "SPIstatusheader";
                     Example.t_params := [] |}]) as Hnone
    by (repeat constructor).
  split; [reflexivity|]. split; [exact Hnone|].
  apply (get_current_case_names_none Example.wiki
           (fun _ => [{| Example.t_name := "SPIstatusheader";
                         Example.t_params := [] |}])
           Example.name_matches Example.Template_get Example.Param_str
           Example.anonymous_site Example.ready);
    [reflexivity | exact Hnone].
Defined.

Lemma load_tool_name_toolforge :
  Project.environ Cases.outside !! "HOME" = Some "/data/project/spi-tools-dev"
  ∧ Project.version_info Cases.outside = inr (VStr "v1")
  ∧ Project.base_dir Cases.outside =
      "/data/project" +:+ "/" +:+ "spi-tools-dev" +:+ "/www/python/src"
  ∧ Project.has_char (Ascii.ascii_of_nat 10) "/data/project" = false
  ∧ Project.has_char (Ascii.ascii_of_nat 47) "spi-tools-dev" = false
  ∧ ∃ st,
      Project.load Cases.outside = inr st
      ∧ Project.TOOL_NAME st = "spi-tools-dev"
      ∧ Project.STATIC_URL st = "/" +:+ "spi-tools-dev" +:+ "/static/"
      ∧ Project.MEDIAWIKI_CALLBACK st =
          "https://" +:+ "spi-tools-dev"
          +:+ ".toolforge.org/oauth/complete/mediawiki/"
      ∧ Project.DEBUG st = true
      ∧ Project.BASE_DIR st = Project.base_dir Cases.outside.
Proof.
  split; [vm_compute; reflexivity|]. split; [reflexivity|].
  split; [reflexivity|]. split; [reflexivity|]. split; [reflexivity|].
  apply (load_tool_name Cases.outside "/data/project" "spi-tools-dev"
           "/data/project/spi-tools-dev" (VStr "v1"));
    [vm_compute; reflexivity | reflexivity | reflexivity | reflexivity
    | reflexivity].
Defined.

Lemma load_sound_toolforge :
  Project.load Cases.outside = inr Cases.loaded
  ∧ Project.has_char (Ascii.ascii_of_nat 47) (Project.TOOL_NAME Cases.loaded)
    = false
  ∧ (∃ a rest,
       Project.BASE_DIR Cases.loaded =
         a +:+ "/" +:+ Project.TOOL_NAME Cases.loaded +:+ "/www/python/src"
         +:+ rest)
  ∧ Project.STATIC_URL Cases.loaded =
      "/" +:+ Project.TOOL_NAME Cases.loaded +:+ "/static/"
  ∧ ∃ home, Project.environ Cases.outside !! "HOME" = Some home
            ∧ String.prefix home (Project.LOG_DIR Cases.loaded) = true
            ∧ endswith (Project.LOG_DIR Cases.loaded) "logs" = true.
Proof.
  split; [vm_compute; reflexivity|].
  apply (load_sound Cases.outside Cases.loaded).
  vm_compute. reflexivity.
Defined.

Lemma get_user_blocks_no_expiry_Eve :
  self_site Example.ready = Some Example.anonymous_site
  ∧ Forall (fun b => ∃ a t p, b !! "action" = Some a
                              ∧ b !! "timestamp" = Some (VTime t)
                              ∧ b !! "params" = Some (VDict p)
                              ∧ p !! "expiry" = None)
           (logevents Cases.indefinite ("User:" +:+ "Eve") "block" "newer")
  ∧ ∃ events,
      (get_user_blocks Cases.indefinite Example.struct_to_datetime
                       (fun _ => inl (ValueError "unused")) "Eve"
                       Example.ready).1 = inr events
      ∧ Forall (fun e => match e with
                         | BlockEvent _ _ expiry _ => expiry = VNone
                         | UnblockEvent _ _ => True
                         end) events.
Proof.
  assert (Forall (fun b => ∃ a t p, b !! "action" = Some a
                                    ∧ b !! "timestamp" = Some (VTime t)
                                    ∧ b !! "params" = Some (VDict p)
                                    ∧ p !! "expiry" = None)
            (logevents Cases.indefinite ("User:" +:+ "Eve") "block" "newer"))
    as Hentries.
  { repeat (constructor;
            [eexists _, _, _; repeat split; vm_compute; reflexivity|]).
    constructor. }
  split; [reflexivity|]. split; [exact Hentries|].
  apply (get_user_blocks_no_expiry Cases.indefinite
           Example.struct_to_datetime (fun _ => inl (ValueError "unused"))
           "Eve" Example.anonymous_site Example.ready);
    [reflexivity | exact Hentries].
Defined.
